(** * PlantCareAI: a shallow embedding of the inference pipeline

    The development follows [app.py] (request handlers and helpers) and
    [PlantCare_AI/utils/model_loader.py] (the LLM loader).

    Conventions of the embedding:
    - a Python [str] is a Rocq [string]; case mapping is the ASCII one, bytes
      above 127 (UTF-8 encoded text) are left as they are;
    - a Python exception is a value of [exn], a call that may raise returns
      a [result];
    - calls that leave the process (file system, classifier, weather API,
      language model, flashed messages) are recorded in a trace of [event]s
      threaded through the monad [M];
    - the Flask session and [os.environ] are finite maps ([gmap]); JSON and
      YAML documents are [pyval]s whose dictionaries keep insertion order;
      in the account handlers [flash] also writes the session, under the key
      "_flashes", as Flask does;
    - a floating-point number is the rational it stands for ([Q]), which
      covers the finite floats other than the negative zero; an arithmetic
      operation on floats gives the float of its kind nearest to the exact
      result, and the text of a float is the shortest decimal that reads
      back as it;
    - the entry of [predict_disease] and of [preprocess_image] is an event
      of its own, so that a trace shows whether the classifier was reached. *)

From stdpp Require Import base option strings list gmap pretty.
From Stdlib Require Import Ascii QArith Qabs.

#[local] Open Scope string_scope.
#[local] Open Scope list_scope.
#[local] Set Warnings "-register-all".

(** ** Exceptions and results *)

Inductive exn : Type :=
| ImportError (msg : string)
| ValueError (msg : string)
| KeyError (key : string)
| IndexError
| TypeError
| AttributeError.

Inductive result (A : Type) : Type :=
| Ok (a : A)
| Raise (e : exn).
Arguments Ok {A} a.
Arguments Raise {A} e.

#[global] Instance result_ret : MRet result := fun A a => Ok a.
#[global] Instance result_bind : MBind result := fun A B f r =>
  match r with
  | Ok a => f a
  | Raise e => Raise e
  end.

Definition is_ok {A} (r : result A) : bool :=
  match r with Ok _ => true | Raise _ => false end.

(** ** Python [str] methods used by the application *)

Module PyStr.

(** [sub in s] *)
Fixpoint contains (sub s : string) : bool :=
  String.prefix sub s ||
  match s with
  | EmptyString => false
  | String _ rest => contains sub rest
  end.

Definition lower_ascii (c : ascii) : ascii :=
  let n := nat_of_ascii c in
  if (65 <=? n)%nat && (n <=? 90)%nat then ascii_of_nat (n + 32) else c.

Definition upper_ascii (c : ascii) : ascii :=
  let n := nat_of_ascii c in
  if (97 <=? n)%nat && (n <=? 122)%nat then ascii_of_nat (n - 32) else c.

(** The texts are sequences of bytes, the UTF-8 form of a Python [str].
    [lower] and [capitalize] below change the case of the ASCII letters and
    are the methods of Python on the texts of [is_ascii]; on other texts
    Python also maps the letters beyond ASCII. *)
Fixpoint is_ascii (s : string) : bool :=
  match s with
  | EmptyString => true
  | String c rest => (nat_of_ascii c <? 128)%nat && is_ascii rest
  end.

(** [s.lower()] *)
Fixpoint lower (s : string) : string :=
  match s with
  | EmptyString => EmptyString
  | String c rest => String (lower_ascii c) (lower rest)
  end.

(** [s.capitalize()]: first character upper-cased, the rest lower-cased. *)
Definition capitalize (s : string) : string :=
  match s with
  | EmptyString => EmptyString
  | String c rest => String (upper_ascii c) (lower rest)
  end.

(** [s[n:]] *)
Fixpoint drop (n : nat) (s : string) : string :=
  match n, s with
  | O, _ => s
  | S _, EmptyString => EmptyString
  | S k, String _ rest => drop k rest
  end.

(** [s.replace(old, new)] for a non-empty [old]: the occurrences of [old]
    are taken from left to right and do not overlap.  [skip] counts the
    characters of a matched occurrence that are still to be passed over. *)
Fixpoint replace_go (old new : string) (skip : nat) (s : string) : string :=
  match s with
  | EmptyString => EmptyString
  | String c rest =>
      match skip with
      | S k => replace_go old new k rest
      | O =>
          if String.prefix old s
          then new +:+ replace_go old new (String.length old - 1) rest
          else String c (replace_go old new 0 rest)
      end
  end.

Definition replace (old new s : string) : string := replace_go old new 0 s.

(** The rightmost occurrence of a non-empty [sep] in [s]: the text before
    it and the text after it. *)
Fixpoint rpartition (sep s : string) : option (string * string) :=
  match s with
  | EmptyString => None
  | String c rest =>
      match rpartition sep rest with
      | Some (before, after) => Some (String c before, after)
      | None =>
          if String.prefix sep s
          then Some (EmptyString, drop (String.length sep) s)
          else None
      end
  end.

(** [s.rsplit(sep, 1)] *)
Definition rsplit1 (sep s : string) : list string :=
  match rpartition sep s with
  | Some (before, after) => [before; after]
  | None => [s]
  end.

End PyStr.

(** [l[i]] on a Python list *)
Definition subscript {A} (l : list A) (i : nat) : result A :=
  match l !! i with
  | Some x => Ok x
  | None => Raise IndexError
  end.

(** ** [app.py]: upload validation and label humanisation *)

Definition ALLOWED_EXTENSIONS : gset string := {[ "png"; "jpg"; "jpeg" ]}.

Definition allowed_file (filename : string) : result bool :=
  if PyStr.contains "." filename then
    ext ← subscript (PyStr.rsplit1 "." filename) 1;
    mret (bool_decide (PyStr.lower ext ∈ ALLOWED_EXTENSIONS))
  else mret false.

(** The acceptance rule in the words of the specification: the name has a
    dot, and what follows its last dot is, whatever the case of its
    letters, one of the three extensions. *)
Definition extension_allowed (filename : string) : Prop :=
  exists stem ext : string,
    filename = stem +:+ "." +:+ ext /\
    PyStr.contains "." ext = false /\
    (PyStr.lower ext = "png" \/ PyStr.lower ext = "jpg" \/ PyStr.lower ext = "jpeg").

(** The label as it goes into the prompt ([analyze], line 240, and
    [get_combined_advice], line 119). *)
Definition humanize_prompt (disease : string) : string :=
  PyStr.replace "_" " " (PyStr.replace "___" " " disease).

(** The label as it is displayed ([analyze], line 246). *)
Definition humanize_display (disease : string) : string :=
  PyStr.replace "_" " " (PyStr.replace "___" " - " disease).

(** ** Python values: JSON and YAML documents *)

Inductive pyval : Type :=
| PNone
| PBool (b : bool)
| PInt (n : Z)
| PFloat (x : Q)
| PStr (s : string)
| PList (items : list pyval)
| PDict (entries : list (string * pyval)).

(** A dictionary with string keys, in insertion order. *)
Abbreviation pydict := (list (string * pyval)).

Fixpoint dict_lookup (key : string) (d : pydict) : option pyval :=
  match d with
  | [] => None
  | (k, v) :: rest => if String.eqb k key then Some v else dict_lookup key rest
  end.

(** [key in d] *)
Definition dict_contains (key : string) (d : pydict) : bool :=
  match dict_lookup key d with Some _ => true | None => false end.

(** [d.get(key, default)] *)
Definition dict_get (key : string) (default : pyval) (d : pydict) : pyval :=
  match dict_lookup key d with Some v => v | None => default end.

(** [v[key]] for a string [key] *)
Definition getitem_key (v : pyval) (key : string) : result pyval :=
  match v with
  | PDict d =>
      match dict_lookup key d with
      | Some x => Ok x
      | None => Raise (KeyError key)
      end
  | _ => Raise TypeError
  end.

(** [v[i]] for a non-negative integer [i] *)
Definition getitem_idx (v : pyval) (i : nat) : result pyval :=
  match v with
  | PList l => subscript l i
  | PStr s =>
      match String.get i s with
      | Some c => Ok (PStr (String c EmptyString))
      | None => Raise IndexError
      end
  | PDict _ => Raise (KeyError (pretty i))
  | _ => Raise TypeError
  end.

(** [v.get(key, default)]: only dictionaries have the method. *)
Definition py_get (v : pyval) (key : string) (default : pyval) : result pyval :=
  match v with
  | PDict d => Ok (dict_get key default d)
  | _ => Raise AttributeError
  end.

(** [v.capitalize()]: only strings have the method. *)
Definition py_capitalize (v : pyval) : result string :=
  match v with
  | PStr s => Ok (PyStr.capitalize s)
  | _ => Raise AttributeError
  end.

(** ** Numbers: [round], and the text of a number *)

Module PyNum.

(** The integer nearest to [x], ties to the even one ([np.rint]). *)
Definition round_half_even (x : Q) : Z :=
  let d := Z.pos (Qden x) in
  let q := (Qnum x / d)%Z in
  let r := (Qnum x mod d)%Z in
  match (2 * r ?= d)%Z with
  | Lt => q
  | Gt => (q + 1)%Z
  | Eq => if Z.even q then q else (q + 1)%Z
  end.

(** The kinds of floating-point number the application meets: NumPy
    scalars in single and in double precision, and Python's own [float],
    which is a double. *)
Inductive float_kind : Type := NumpyFloat32 | NumpyFloat64 | PythonFloat.

(** The number of bits of the significand, and the exponent of the
    smallest positive number. *)
Definition precision (kind : float_kind) : Z :=
  match kind with NumpyFloat32 => 24 | _ => 53 end.

Definition emin (kind : float_kind) : Z :=
  match kind with NumpyFloat32 => -149 | _ => -1074 end.

Definition pow2 (e : Z) : Q := Qpower 2 e.
Definition pow10 (e : Z) : Q := Qpower 10 e.

(** The largest [e] with [2 ^ e <= a], for a positive [a]. *)
Definition floor_log2 (a : Q) : Z :=
  let guess := (Z.log2 (Qnum a) - Z.log2 (Z.pos (Qden a)))%Z in
  if Qle_bool (pow2 guess) a then guess else (guess - 1)%Z.

(** The largest [k] with [10 ^ k <= a], for a positive [a]. *)
Definition floor_log10 (a : Q) : Z :=
  let guess := (floor_log2 a * 30103 / 100000)%Z in
  let up := if Qle_bool (pow10 (guess + 1)) a then (guess + 1)%Z else guess in
  if Qle_bool (pow10 up) a then up else (up - 1)%Z.

(** The float of a kind nearest to [x], ties to the even significand: the
    result of every arithmetic operation whose exact value is [x].  The
    range of the exponent is not bounded from above. *)
Definition nearest (kind : float_kind) (x : Q) : Q :=
  let x := Qred x in
  if (Qnum x =? 0)%Z then 0%Q
  else
    let e := Z.max (floor_log2 (Qabs x) - precision kind + 1) (emin kind) in
    Qred (inject_Z (round_half_even (x / pow2 e)) * pow2 e).

(** What [round(x, ndigits)] rounds to an integer, for [ndigits >= 0]: a
    NumPy scalar is multiplied by the power of ten in its own precision, a
    Python [float] is taken on its exact decimal expansion. *)
Definition scaled (kind : float_kind) (x : Q) (ndigits : nat) : Q :=
  let scale := inject_Z (10 ^ Z.of_nat ndigits) in
  match kind with
  | PythonFloat => (x * scale)%Q
  | _ => nearest kind (x * scale)
  end.

(** [round(x, ndigits)]: the nearest integer, ties to the even one, is
    divided by the power of ten again (NumPy), or read back as a double
    (Python); either way the result is the float nearest to the quotient. *)
Definition round (kind : float_kind) (x : Q) (ndigits : nat) : Q :=
  nearest kind (inject_Z (round_half_even (scaled kind x ndigits))
                / inject_Z (10 ^ Z.of_nat ndigits)).

Definition floor (x : Q) : Z := (Qnum x / Z.pos (Qden x))%Z.

(** The decimals with [n] significant digits next to [a], written as an
    integer and a power of ten, that read back as the double [a]; of two,
    the nearer one, and on a tie the even one. *)
Definition shortest_at (a : Q) (k n : Z) : option (Z * Z) :=
  let e := (k - n + 1)%Z in
  let scaled := (a / pow10 e)%Q in
  let lo := floor scaled in
  let hi := (lo + 1)%Z in
  let reads_back (d : Z) := Qeq_bool (nearest PythonFloat (inject_Z d * pow10 e)) a in
  let below := (scaled - inject_Z lo)%Q in
  let above := (inject_Z hi - scaled)%Q in
  let take_lo := if Qeq_bool below above then Z.even lo else Qle_bool below above in
  match reads_back lo, reads_back hi with
  | true, true => Some (if take_lo then lo else hi, e)
  | true, false => Some (lo, e)
  | false, true => Some (hi, e)
  | false, false => None
  end.

(** The shortest decimal that reads back as [a]: seventeen digits always
    do for a double. *)
Fixpoint shortest_from (fuel : nat) (a : Q) (k n : Z) : Z * Z :=
  match fuel with
  | O => (floor (a / pow10 (k - n + 1)), (k - n + 1)%Z)
  | S more =>
      match shortest_at a k n with
      | Some found => found
      | None => shortest_from more a k (n + 1)
      end
  end.

Fixpoint strip_zeros (fuel : nat) (d e : Z) : Z * Z :=
  match fuel with
  | O => (d, e)
  | S more => if (d mod 10 =? 0)%Z then strip_zeros more (d / 10) (e + 1) else (d, e)
  end.

Fixpoint zeros (n : nat) : string :=
  match n with
  | O => EmptyString
  | S k => String "0" (zeros k)
  end.

Fixpoint skip (n : nat) (s : string) : string :=
  match n, s with
  | O, _ => s
  | S _, EmptyString => EmptyString
  | S k, String _ rest => skip k rest
  end.

(** [e-05], [e+16]: a sign and two digits at least. *)
Definition exponent_text (e : Z) : string :=
  (if (e <? 0)%Z then "e-" else "e+") +:+
  (if (Z.abs e <? 10)%Z then "0" else EmptyString) +:+ pretty (Z.abs e).

Definition positive_float_str (a : Q) : string :=
  let '(d, e) := shortest_from 17 a (floor_log10 a) 1 in
  let '(d, e) := strip_zeros 400 d e in
  let digits := pretty d in
  let count := Z.of_nat (String.length digits) in
  let point := (e + count)%Z in
  if (point <=? -4)%Z || (16 <? point)%Z then
    String.substring 0 1 digits +:+
    (if (1 <? count)%Z then "." +:+ skip 1 digits else EmptyString) +:+
    exponent_text (point - 1)
  else if (point <=? 0)%Z then
    "0." +:+ zeros (Z.to_nat (- point)) +:+ digits
  else if (count <=? point)%Z then
    digits +:+ zeros (Z.to_nat (point - count)) +:+ ".0"
  else
    String.substring 0 (Z.to_nat point) digits +:+ "." +:+ skip (Z.to_nat point) digits.

(** [str(x)] and [repr(x)] of a double [x]: the shortest decimal that
    reads back as [x], in positional notation when the decimal point falls
    within the digits or at most three places before them or sixteen
    places from their start, with an exponent otherwise. *)
Definition float_str (x : Q) : string :=
  match Qnum x with
  | Z0 => "0.0"
  | Zpos _ => positive_float_str x
  | Zneg _ => "-" +:+ positive_float_str (Qabs x)
  end.

(** The largest float of a kind, and [is_float]: [x] is a finite float of
    the kind.  A rational stands for a finite float other than the negative
    zero; infinities and not-a-number have no rational. *)
Definition emax (kind : float_kind) : Z :=
  match kind with
  | NumpyFloat32 => 127
  | _ => 1023
  end.

Definition max_float (kind : float_kind) : Q :=
  inject_Z (2 ^ precision kind - 1) * pow2 (emax kind - precision kind + 1).

Definition is_float (kind : float_kind) (x : Q) : bool :=
  Qeq_bool (nearest kind x) x && Qle_bool (Qabs x) (max_float kind).

End PyNum.

Definition Qltb (x y : Q) : bool := negb (Qle_bool y x).

(** ** The text of a value: [str] and [repr] *)

Module PyRepr.

Definition hex_digit (n : nat) : string :=
  match String.get n "0123456789abcdef" with
  | Some c => String c EmptyString
  | None => EmptyString
  end.

Definition escape (quote c : ascii) : string :=
  let n := nat_of_ascii c in
  if Ascii.eqb c quote || Ascii.eqb c "\"%char
  then String "\"%char (String c EmptyString)
  else if (n =? 9)%nat then "\t"
  else if (n =? 10)%nat then "\n"
  else if (n =? 13)%nat then "\r"
  else if (n <? 32)%nat || (n =? 127)%nat
  then "\x" +:+ hex_digit (n / 16) +:+ hex_digit (n mod 16)
  else String c EmptyString.

Fixpoint escape_all (quote : ascii) (s : string) : string :=
  match s with
  | EmptyString => EmptyString
  | String c rest => escape quote c +:+ escape_all quote rest
  end.

(** [repr(s)]: single quotes, unless the text has a single quote and no
    double quote. *)
Definition str_repr (s : string) : string :=
  let quote : ascii :=
    if PyStr.contains "'" s && negb (PyStr.contains (String (ascii_of_nat 34) EmptyString) s)
    then ascii_of_nat 34 else "'"%char in
  String quote (escape_all quote s) +:+ String quote EmptyString.

Fixpoint join (sep : string) (parts : list string) : string :=
  match parts with
  | [] => EmptyString
  | [p] => p
  | p :: rest => p +:+ sep +:+ join sep rest
  end.

Fixpoint repr (v : pyval) : string :=
  match v with
  | PNone => "None"
  | PBool true => "True"
  | PBool false => "False"
  | PInt n => pretty n
  | PFloat x => PyNum.float_str x
  | PStr s => str_repr s
  | PList l => "[" +:+ join ", " (map repr l) +:+ "]"
  | PDict d =>
      "{" +:+ join ", " (map (fun kv => str_repr (fst kv) +:+ ": " +:+ repr (snd kv)) d) +:+ "}"
  end.

(** [str(v)], which is what an f-string field shows. *)
Definition str (v : pyval) : string :=
  match v with
  | PStr s => s
  | _ => repr v
  end.

(** The values whose [str] is exactly the text above whatever they hold:
    [None], the Booleans, the strings, the doubles, and the integers of at
    most 4300 digits, the longest that Python converts to text.  Inside a
    list or a dictionary [repr] also escapes the characters beyond ASCII
    that do not print, which [str_repr] leaves as they are. *)
Definition scalar (v : pyval) : bool :=
  match v with
  | PNone | PBool _ | PStr _ => true
  | PInt n => (Z.abs n <? 10 ^ 4300)%Z
  | PFloat x => PyNum.is_float PyNum.PythonFloat x
  | PList _ | PDict _ => false
  end.

End PyRepr.

(** ** [prompt_library/prompts.py] *)

Definition nl : string := String (ascii_of_nat 10) EmptyString.

(** The template of [PLANT_CARE_PROMPT], filled with its two variables. *)
Definition PLANT_CARE_PROMPT (disease weather_data : string) : string :=
  "You are a professional AI Plant Pathologist and Agricultural Advisor." +:+ nl +:+
  "    " +:+ nl +:+
  "    Current Findings:" +:+ nl +:+
  "    - Detected Disease: " +:+ disease +:+
  nl +:+
  "    - Current Weather at Location: " +:+ weather_data +:+
  nl +:+
  "    " +:+ nl +:+
  "    Instructions:" +:+ nl +:+
  "    1. Explain what this disease is briefly." +:+ nl +:+
  "    2. Provide 3 specific treatment steps." +:+ nl +:+
  "    3. IMPORTANT: Give custom advice based on the weather. " +:+ nl +:+
  "       (e.g., If it's humid, suggest better spacing. If it's raining, warn about fungal spread. If it's hot, suggest watering timing)." +:+ nl +:+
  "    4. Provide 2 prevention tips." +:+ nl +:+
  nl +:+
  "    Format: Use clear Markdown with headings." +:+ nl +:+
  "    ".

(** ** Effects: the trace monad *)

Inductive event : Type :=
| Stdout (text : string)                 (* [print] *)
| Flash (message category : string)      (* [flash] *)
| FileSave (filepath : string)           (* [file.save] *)
| CallPredictDisease (img_path : string) (* entry of [predict_disease] *)
| CallPreprocessImage (image_path : string) (* entry of [preprocess_image] *)
| ModelPredict                           (* [model.predict] *)
| WeatherCurrent (city : string)         (* [weather_tool.get_current_weather] *)
| WeatherForecast (city : string)        (* [weather_tool.get_forecast_weather] *)
| ClientConstruct (class_name : string)  (* [ChatGroq(...)], [ChatOpenAI(...)] *)
| LlmInvoke (prompt : string).           (* the chat model is called *)

Definition M (A : Type) : Type := list event -> result A * list event.

#[global] Instance M_ret : MRet M := fun A a t => (Ok a, t).
#[global] Instance M_bind : MBind M := fun A B f m t =>
  match m t with
  | (Ok a, t') => f a t'
  | (Raise e, t') => (Raise e, t')
  end.

Definition emit (ev : event) : M unit := fun t => (Ok tt, t ++ [ev]).
Definition raise {A} (e : exn) : M A := fun t => (Raise e, t).
Definition lift {A} (r : result A) : M A := fun t => (r, t).

(** The outcome and the trace of a computation started on an empty trace. *)
Definition run {A} (m : M A) : result A * list event := m [].

(** A computation is [steady] when its outcome does not depend on the trace
    it starts from and it only adds events at the end. *)
Definition steady {A} (m : M A) : Prop :=
  forall t, m t = (fst (run m), t ++ snd (run m)).

(** ** [model_loader.py] *)

(** The handle a client class builds: [ChatGroq(model=..., api_key=...)]. *)
Record chat_model : Type := {
  cm_class : string;
  cm_model : pyval;
  cm_api_key : string;
}.

(** What the loader sees of the process: the two optional client classes
    ([None] when the import failed), the environment, and the parsed
    [config.yaml].  A client class is called with the model name and the
    key; the call gives a handle or raises, as [ChatGroq(model=None, ...)]
    does with a validation error. *)
Record loader_runtime : Type := {
  ChatGroq : option (pyval -> string -> result chat_model);
  ChatOpenAI : option (pyval -> string -> result chat_model);
  environ : gmap string string;
  config : pyval;
}.

(** [not api_key] for the result of [os.getenv] *)
Definition key_missing (api_key : option string) : bool :=
  match api_key with
  | None => true
  | Some k => String.eqb k EmptyString
  end.

Definition load_llm (lr : loader_runtime) (model_provider : string) : M chat_model :=
  emit (Stdout ("LLM loading for provider: " +:+ model_provider));;
  if String.eqb model_provider "groq" then
    match ChatGroq lr with
    | None =>
        raise (ImportError
          "langchain_groq is not installed. Install it using: pip install langchain-groq")
    | Some new_client =>
        let api_key := environ lr !! "GROQ_API_KEY" in
        if key_missing api_key
        then raise (ValueError "GROQ_API_KEY missing! Check your .env file.")
        else
          llm_section ← lift (getitem_key (config lr) "llm");
          provider_section ← lift (getitem_key llm_section "groq");
          model_name ← lift (getitem_key provider_section "model_name");
          emit (Stdout ("Using Groq Model: " +:+ PyRepr.str model_name));;
          emit (ClientConstruct "ChatGroq");;
          lift (new_client model_name (default EmptyString api_key))
    end
  else if String.eqb model_provider "openai" then
    match ChatOpenAI lr with
    | None =>
        raise (ImportError
          "langchain_openai is not installed. Install it using: pip install langchain-openai")
    | Some new_client =>
        let api_key := environ lr !! "OPENAI_API_KEY" in
        if key_missing api_key
        then raise (ValueError "OPENAI_API_KEY missing! Check your .env file.")
        else
          llm_section ← lift (getitem_key (config lr) "llm");
          provider_section ← lift (getitem_key llm_section "openai");
          model_name ← lift (getitem_key provider_section "model_name");
          emit (Stdout ("Using OpenAI Model: " +:+ PyRepr.str model_name));;
          emit (ClientConstruct "ChatOpenAI");;
          lift (new_client model_name (default EmptyString api_key))
    end
  else raise (ValueError ("Unsupported provider: " +:+ model_provider)).

(** The events that reach a language-model provider. *)
Definition is_llm_event (ev : event) : bool :=
  match ev with
  | ClientConstruct _ | LlmInvoke _ => true
  | _ => false
  end.

(** ** [app.py]: the classifier *)

(** A decoded image: rows of pixels, three channels each. *)
Definition pixel : Type := Z * Z * Z.
Definition image : Type := list (list pixel).

(** [cv2.cvtColor(img, cv2.COLOR_BGR2RGB)]: the first and the third channel
    change places. *)
Definition cvtColor_BGR2RGB (img : image) : image :=
  map (map (fun p : pixel => let '(b, g, r) := p in (r, g, b))) img.

(** [np.argmax(v)]: a scan from the left that moves only to a strictly
    larger entry. *)
Fixpoint argmax_from (best : Q) (best_i i : nat) (v : list Q) : nat :=
  match v with
  | [] => best_i
  | x :: rest =>
      if Qltb best x then argmax_from x i (S i) rest
      else argmax_from best best_i (S i) rest
  end.

Definition np_argmax (v : list Q) : result nat :=
  match v with
  | [] => Raise (ValueError "attempt to get argmax of an empty sequence")
  | x :: rest => Ok (argmax_from x 0 1 rest)
  end.

(** [np.max(v)] *)
Fixpoint max_from (best : Q) (v : list Q) : Q :=
  match v with
  | [] => best
  | x :: rest => if Qltb best x then max_from x rest else max_from best rest
  end.

Definition np_max (v : list Q) : result Q :=
  match v with
  | [] => Raise (ValueError "zero-size array to reduction operation maximum which has no identity")
  | x :: rest => Ok (max_from x rest)
  end.

(** The module-level state of [app.py] and the services it calls.  The
    classifier is [None] when loading it failed at start-up, and so is the
    language-model handle.  [output_kind] is the kind of number the
    classifier result carries: [np.float32] for the output of a Keras
    model, [np.float64], or a Python [float] for a test double. *)
Record runtime : Type := {
  model : option (list image -> list (list Q));
  output_kind : PyNum.float_kind;
  class_names : list string;
  llm : option chat_model;
  llm_reply : chat_model -> string -> string;
  imread : string -> option image;
  resize : image -> nat * nat -> image;
  get_current_weather : string -> pydict;
  get_forecast_weather : string -> pydict;
  secure_filename : string -> string;
  markdown : string -> string;
}.

Section App.

Variable rt : runtime.

Definition preprocess_image (image_path : string) : M (option (list image)) :=
  emit (CallPreprocessImage image_path);;
  match imread rt image_path with
  | None => mret None
  | Some img =>
      let img_rgb := cvtColor_BGR2RGB img in
      let img_resized := resize rt img_rgb (224, 224)%nat in
      mret (Some [img_resized])
  end.

Definition predict_disease (img_path : string) : M (string * Q) :=
  emit (CallPredictDisease img_path);;
  match model rt with
  | None => mret ("Model not loaded", 0%Q)
  | Some classifier =>
      processed_img ← preprocess_image img_path;
      match processed_img with
      | None => mret ("Processing failed", 0%Q)
      | Some batch =>
          emit ModelPredict;;
          let predictions := classifier batch in
          first_row ← lift (subscript predictions 0);
          idx ← lift (np_argmax first_row);
          label ← lift (subscript (class_names rt) idx);
          confidence ← lift (np_max first_row);
          mret (label, confidence)
      end
  end.

(** ** [app.py]: the advice chain *)

(** [PLANT_CARE_PROMPT | llm | StrOutputParser()]: the pipe turns its
    right operand into a runnable and refuses [None]. *)
Definition build_chain (handle : option chat_model) : result chat_model :=
  match handle with
  | Some h => Ok h
  | None => Raise TypeError
  end.

(** [chain.invoke({"disease": ..., "weather_data": ...})] *)
Definition chain_invoke (chain : chat_model) (disease weather_data : string) : M string :=
  let prompt := PLANT_CARE_PROMPT disease weather_data in
  emit (LlmInvoke prompt);;
  mret (llm_reply rt chain prompt).

Definition get_combined_advice (disease_name city : string) : M string :=
  match llm rt with
  | None => mret "AI advice unavailable."
  | Some _ =>
      emit (WeatherCurrent city);;
      let weather_data := get_current_weather rt city in
      emit (WeatherForecast city);;
      let forecast_data := get_forecast_weather rt city in
      first_weather ← lift (getitem_idx (dict_get "weather" (PList [PDict []]) weather_data) 0);
      description ← lift (py_get first_weather "description" (PStr "N/A"));
      temp ← lift (py_get (dict_get "main" (PDict []) weather_data) "temp" PNone);
      let weather_summary :=
        "Weather in " +:+ city +:+ ": " +:+ PyRepr.str description +:+ ", " +:+
        "Temp: " +:+ PyRepr.str temp +:+ "°C. " in
      let clean_name := humanize_prompt disease_name in
      chain ← lift (build_chain (llm rt));
      chain_invoke chain clean_name weather_summary
  end.

End App.

(** ** [app.py]: requests, the log-in gate and the [/analyze] handler *)

Inductive http_method : Type := GET | POST.

(** An uploaded file ([werkzeug]'s [FileStorage]); it is truthy when its
    file name is not empty. *)
Record file_storage : Type := {
  fs_filename : string;
}.

Record request : Type := {
  method : http_method;
  session : gmap string pyval;
  form : gmap string string;
  files : gmap string file_storage;
}.

Inductive response : Type :=
| Redirect (location : string)
| Render (template : string) (context : list (string * string)).

(** [url_for(endpoint)] for the routes of the application. *)
Definition url_for (endpoint : string) : string :=
  if String.eqb endpoint "home" then "/" else "/" +:+ endpoint.

Definition UPLOAD_FOLDER : string := "static/uploads".

Fixpoint ends_with_slash (s : string) : bool :=
  match s with
  | EmptyString => false
  | String c EmptyString => Ascii.eqb c "/"%char
  | String _ rest => ends_with_slash rest
  end.

(** [os.path.join(a, b)] *)
Definition path_join (a b : string) : string :=
  if String.prefix "/" b then b
  else if String.eqb a EmptyString || ends_with_slash a then a +:+ b
  else a +:+ "/" +:+ b.

(** The truth value of a string: it is not empty.  An uploaded file is
    truthy when its file name is. *)
Definition truthy (s : string) : bool := negb (String.eqb s EmptyString).

(** The weather line of [analyze] (line 235). *)
Definition weather_summary_of (weather_data : pydict) : result string :=
  if dict_contains "main" weather_data then
    weather ← getitem_key (PDict weather_data) "weather";
    first_weather ← getitem_idx weather 0;
    description ← getitem_key first_weather "description";
    capitalized ← py_capitalize description;
    main ← getitem_key (PDict weather_data) "main";
    temp ← getitem_key main "temp";
    mret (capitalized +:+ ", " +:+ PyRepr.str temp +:+ "°C")
  else mret "Weather data unavailable".

(** The confidence field of the result page (line 247).  The product and
    the rounding are done in the kind of number the confidence is, and the
    text is that of the double equal to the result.  A negative confidence
    that rounds to zero gives the negative zero, shown as "-0.0".  The two
    sentinels of [predict_disease] carry the Python float 0.0, whose field
    is "0.0%" in every kind. *)
Definition confidence_text (kind : PyNum.float_kind) (confidence : Q) : string :=
  let shown := PyNum.round kind (PyNum.nearest kind (confidence * 100)) 2 in
  (if Qeq_bool shown 0 && Qltb confidence 0 then "-0.0" else PyNum.float_str shown)
  +:+ "%".

Section Views.

Variable rt : runtime.

Definition login_required (f : request -> M response) (req : request) : M response :=
  match session req !! "logged_in" with
  | None =>
      emit (Flash "Please log in to access this page." "warning");;
      mret (Redirect (url_for "signin"))
  | Some _ => f req
  end.

(** The body of [analyze], under the decorator. *)
Definition analyze_view (req : request) : M response :=
  let blank_form := Render "analyze.html" [] in
  match method req with
  | GET => mret blank_form
  | POST =>
      match files req !! "file" with
      | None => mret blank_form
      | Some file =>
          if truthy (fs_filename file) then
            allowed ← lift (allowed_file (fs_filename file));
            match form req !! "city" with
            | None => mret blank_form
            | Some city =>
                if allowed && truthy city then
                  let filename := secure_filename rt (fs_filename file) in
                  let filepath := path_join UPLOAD_FOLDER filename in
                  emit (FileSave filepath);;
                  '(disease, confidence) ← predict_disease rt filepath;
                  emit (WeatherCurrent city);;
                  let weather_data := get_current_weather rt city in
                  weather_summary ← lift (weather_summary_of weather_data);
                  chain ← lift (build_chain (llm rt));
                  advice_md ← chain_invoke rt chain (humanize_prompt disease) weather_summary;
                  mret (Render "analyze.html"
                          [("filename", filename);
                           ("disease", humanize_display disease);
                           ("confidence", confidence_text (output_kind rt) confidence);
                           ("weather", weather_summary);
                           ("city", city);
                           ("remedy", markdown rt advice_md)])
                else mret blank_form
            end
          else mret blank_form
      end
  end.

Definition analyze : request -> M response := login_required analyze_view.

End Views.

(** The events that show the classifier at work. *)
Definition is_classifier_event (ev : event) : bool :=
  match ev with
  | CallPredictDisease _ | CallPreprocessImage _ | ModelPredict => true
  | _ => false
  end.

(** ** A test set-up: doubles for the classifier, the weather service and
    the language model *)

Module Scenario.

(** The classifier answers with the single-precision floats nearest to
    0.08 and 0.92. *)
Definition classifier (batch : list image) : list (list Q) :=
  [[5368709 # 67108864; 15435039 # 16777216]]%Q.

Definition weather (city : string) : pydict :=
  [("main", PDict [("temp", PInt 30)]);
   ("weather", PList [PDict [("description", PStr "clear sky")]])].

Definition handle : chat_model :=
  {| cm_class := "ChatGroq"; cm_model := PStr "llama-3.3-70b-versatile"; cm_api_key := "gsk-test" |}.

Definition rt : runtime :=
  {| model := Some classifier;
     output_kind := PyNum.NumpyFloat32;
     class_names := ["Tomato___healthy"; "Tomato___Early_blight"];
     llm := Some handle;
     llm_reply := fun _ _ => "## Early blight";
     imread := fun _ => Some [[(10, 20, 30)%Z]];
     resize := fun img _ => img;
     get_current_weather := weather;
     get_forecast_weather := fun _ => [];
     secure_filename := fun name => name;
     markdown := fun text => "<h2>Early blight</h2>" |}.

(** The same process when loading the language model failed at start-up. *)
Definition rt_no_llm : runtime :=
  {| model := model rt; output_kind := output_kind rt;
     class_names := class_names rt; llm := None;
     llm_reply := llm_reply rt; imread := imread rt; resize := resize rt;
     get_current_weather := get_current_weather rt;
     get_forecast_weather := get_forecast_weather rt;
     secure_filename := secure_filename rt; markdown := markdown rt |}.

(** The same process when loading the classifier failed at start-up. *)
Definition rt_no_model : runtime :=
  {| model := None; output_kind := output_kind rt; class_names := []; llm := llm rt;
     llm_reply := llm_reply rt; imread := imread rt; resize := resize rt;
     get_current_weather := get_current_weather rt;
     get_forecast_weather := get_forecast_weather rt;
     secure_filename := secure_filename rt; markdown := markdown rt |}.

(** The same process in front of a file that does not decode. *)
Definition rt_undecodable : runtime :=
  {| model := model rt; output_kind := output_kind rt;
     class_names := class_names rt; llm := llm rt;
     llm_reply := llm_reply rt; imread := fun _ => None; resize := resize rt;
     get_current_weather := get_current_weather rt;
     get_forecast_weather := get_forecast_weather rt;
     secure_filename := secure_filename rt; markdown := markdown rt |}.

(** The same process with a classifier that gives two classes the same,
    highest, probability. *)
Definition classifier_tie (batch : list image) : list (list Q) :=
  [[2 # 10; 4 # 10; 4 # 10]]%Q.

Definition rt_tie : runtime :=
  {| model := Some classifier_tie;
     output_kind := output_kind rt;
     class_names := ["Tomato___healthy"; "Tomato___Early_blight"; "Tomato___Late_blight"];
     llm := llm rt;
     llm_reply := llm_reply rt; imread := imread rt; resize := resize rt;
     get_current_weather := get_current_weather rt;
     get_forecast_weather := get_forecast_weather rt;
     secure_filename := secure_filename rt; markdown := markdown rt |}.

(** The same process when the weather service answers with its error
    payload. *)
Definition weather_error (city : string) : pydict :=
  [("cod", PStr "404"); ("message", PStr "city not found")].

Definition rt_no_weather : runtime :=
  {| model := model rt; output_kind := output_kind rt;
     class_names := class_names rt; llm := llm rt;
     llm_reply := llm_reply rt; imread := imread rt; resize := resize rt;
     get_current_weather := weather_error;
     get_forecast_weather := get_forecast_weather rt;
     secure_filename := secure_filename rt; markdown := markdown rt |}.

Definition upload (filename city : string) (logged_in : bool) : request :=
  {| method := POST;
     session := if logged_in then {[ "logged_in" := PBool true ]} else ∅;
     form := {[ "city" := city ]};
     files := {[ "file" := {| fs_filename := filename |} ]} |}.

(** Client classes that build a handle from a model name that is a string
    and refuse any other, and a loader with both of them, no API key and the
    shipped model names. *)
Definition new_client (class_name : string) (model_name : pyval) (api_key : string)
  : result chat_model :=
  match model_name with
  | PStr _ =>
      Ok {| cm_class := class_name; cm_model := model_name; cm_api_key := api_key |}
  | _ => Raise (ValueError ("1 validation error for " +:+ class_name))
  end.

Definition loader_no_keys : loader_runtime :=
  {| ChatGroq := Some (new_client "ChatGroq");
     ChatOpenAI := Some (new_client "ChatOpenAI");
     environ := ∅;
     config := PDict [("llm", PDict
       [("groq", PDict [("model_name", PStr "llama-3.3-70b-versatile")]);
        ("openai", PDict [("model_name", PStr "o4-mini")])])] |}.

(** The same loader when neither client library is installed. *)
Definition loader_no_libraries : loader_runtime :=
  {| ChatGroq := None; ChatOpenAI := None;
     environ := environ loader_no_keys; config := config loader_no_keys |}.

(** The same loader with the Groq key set. *)
Definition loader_keys : loader_runtime :=
  {| ChatGroq := ChatGroq loader_no_keys; ChatOpenAI := ChatOpenAI loader_no_keys;
     environ := {[ "GROQ_API_KEY" := "gsk-test" ]}; config := config loader_no_keys |}.

(** The same loader with an empty Groq key, and with a configuration that
    has no "llm" section. *)
Definition loader_empty_key : loader_runtime :=
  {| ChatGroq := ChatGroq loader_no_keys; ChatOpenAI := ChatOpenAI loader_no_keys;
     environ := {[ "GROQ_API_KEY" := EmptyString ]}; config := config loader_no_keys |}.

Definition loader_no_config : loader_runtime :=
  {| ChatGroq := ChatGroq loader_no_keys; ChatOpenAI := ChatOpenAI loader_no_keys;
     environ := environ loader_keys; config := PDict [("weather", PDict [])] |}.

(** The same process with a list of class names shorter than the
    prediction. *)
Definition rt_short_names : runtime :=
  {| model := model rt; output_kind := output_kind rt;
     class_names := ["Tomato___healthy"]; llm := llm rt;
     llm_reply := llm_reply rt; imread := imread rt; resize := resize rt;
     get_current_weather := get_current_weather rt;
     get_forecast_weather := get_forecast_weather rt;
     secure_filename := secure_filename rt; markdown := markdown rt |}.

(** The same process when the weather payload has an empty "weather"
    list, when it has no "weather" at all, and when the forecast call
    answers something. *)
Definition rt_empty_weather : runtime :=
  {| model := model rt; output_kind := output_kind rt;
     class_names := class_names rt; llm := llm rt;
     llm_reply := llm_reply rt; imread := imread rt; resize := resize rt;
     get_current_weather :=
       fun _ => [("main", PDict [("temp", PInt 30)]); ("weather", PList [])];
     get_forecast_weather := get_forecast_weather rt;
     secure_filename := secure_filename rt; markdown := markdown rt |}.

Definition rt_main_only : runtime :=
  {| model := model rt; output_kind := output_kind rt;
     class_names := class_names rt; llm := llm rt;
     llm_reply := llm_reply rt; imread := imread rt; resize := resize rt;
     get_current_weather := fun _ => [("main", PDict [("temp", PInt 30)])];
     get_forecast_weather := get_forecast_weather rt;
     secure_filename := secure_filename rt; markdown := markdown rt |}.

Definition rt_forecast : runtime :=
  {| model := model rt; output_kind := output_kind rt;
     class_names := class_names rt; llm := llm rt;
     llm_reply := llm_reply rt; imread := imread rt; resize := resize rt;
     get_current_weather := get_current_weather rt;
     get_forecast_weather := fun _ => [("list", PList [PDict [("main", PDict [])]])];
     secure_filename := secure_filename rt; markdown := markdown rt |}.

Definition loader_other_key : loader_runtime :=
  {| ChatGroq := ChatGroq loader_no_keys; ChatOpenAI := ChatOpenAI loader_no_keys;
     environ := {[ "GROQ_API_KEY" := "gsk-other" ]}; config := config loader_no_keys |}.

(** The loader with the Groq key and a configuration whose model name is
    left empty ([model_name:] with no value reads as [None]). *)
Definition loader_null_model : loader_runtime :=
  {| ChatGroq := ChatGroq loader_no_keys; ChatOpenAI := ChatOpenAI loader_no_keys;
     environ := environ loader_keys;
     config := PDict [("llm", PDict [("groq", PDict [("model_name", PNone)])])] |}.

End Scenario.

(** ** Start-up: [app.py] lines 58-77, and the check of [main.py] *)

(** [try: body except Exception as e: handler(e)] *)
Definition try_except {A} (body : M A) (handler : exn -> M A) : M A :=
  fun t =>
    match body t with
    | (Ok a, t') => (Ok a, t')
    | (Raise e, t') => handler e t'
    end.

(** What a process offers before a [ModelLoader] exists: the client
    classes, the environment and the reader of [config.yaml]
    ([common.read_yaml], which is not part of the sources at hand). *)
Record loader_process : Type := {
  proc_ChatGroq : option (pyval -> string -> result chat_model);
  proc_ChatOpenAI : option (pyval -> string -> result chat_model);
  proc_environ : gmap string string;
  read_yaml : string -> result pyval;
}.

(** [s * n] *)
Fixpoint str_repeat (s : string) (n : nat) : string :=
  match n with
  | O => EmptyString
  | S k => s +:+ str_repeat s k
  end.

(** The number of keys of a dictionary, [len(d)]. *)
Definition dict_len (d : pydict) : nat := length (remove_dups d.*1).

(** [[class_names[str(i)] for i in range(n)]] *)
Fixpoint names_by_index (d : pydict) (i n : nat) : result (list pyval) :=
  match n with
  | O => Ok []
  | S k =>
      name ← getitem_key (PDict d) (pretty i);
      rest ← names_by_index d (S i) k;
      mret (name :: rest)
  end.

(** Lines 73-74: a dictionary of class names, keyed by the text of the
    index, becomes the list of its values in index order; any other
    document is kept as it is. *)
Definition normalize_class_names (class_names : pyval) : result pyval :=
  match class_names with
  | PDict d =>
      names ← names_by_index d 0 (dict_len d);
      mret (PList names)
  | other => mret other
  end.

Section Startup.

(** [str(e)], the text of an exception, and the text of [CONFIG_PATH]. *)
Variable exn_text : exn -> string.
Variable CONFIG_PATH : string.

(** [ModelLoader(model_provider="groq")]: [model_post_init] builds the
    [ConfigLoader], which announces and reads the configuration. *)
Definition new_groq_loader (proc : loader_process) : M loader_runtime :=
  emit (Stdout ("Loading config from " +:+ CONFIG_PATH +:+ "..."));;
  parsed ← lift (read_yaml proc CONFIG_PATH);
  mret {| ChatGroq := proc_ChatGroq proc;
          ChatOpenAI := proc_ChatOpenAI proc;
          environ := proc_environ proc;
          config := parsed |}.

(** [app.py], lines 58-63: the value bound to [llm], and what is printed. *)
Definition startup_llm (proc : loader_process) : M (option chat_model) :=
  try_except
    (llm_loader ← new_groq_loader proc;
     handle ← load_llm llm_loader "groq";
     mret (Some handle))
    (fun e =>
       emit (Stdout ("Error loading LLM: " +:+ exn_text e));;
       mret None).

(** [main.py]: [check_model_loader]. *)
Definition check_model_loader (proc : loader_process) : M bool :=
  emit (Stdout (str_repeat "=" 60));;
  emit (Stdout "🔍 MODEL LOADER CHECK");;
  emit (Stdout (str_repeat "=" 60));;
  emit (Stdout (nl +:+ "✓ Check 1: Initializing ModelLoader..."));;
  initialized ←
    try_except (A := option loader_runtime)
      (model_loader ← new_groq_loader proc;
       emit (Stdout "  ✅ ModelLoader initialized successfully!");;
       emit (Stdout ("  🤖 Provider: " +:+ "groq"));;
       mret (Some model_loader))
      (fun e =>
         emit (Stdout ("  ❌ Error initializing ModelLoader: " +:+ exn_text e));;
         mret None);
  match (initialized : option loader_runtime) with
  | None => mret false
  | Some model_loader =>
      emit (Stdout (nl +:+ "✓ Check 2: Loading LLM model..."));;
      loaded ←
        try_except (A := bool)
          (handle ← load_llm model_loader "groq";
           emit (Stdout "  ✅ LLM model loaded successfully!");;
           emit (Stdout ("  🔑 API Key Status: " +:+
                         (if key_missing (proc_environ proc !! "GROQ_API_KEY")
                          then "Not found" else "Loaded")));;
           emit (Stdout ("  📦 LLM Object: " +:+ cm_class handle));;
           mret true)
          (fun e =>
             emit (Stdout ("  ❌ Error loading LLM model: " +:+ exn_text e));;
             mret false);
      if (loaded : bool) then
        emit (Stdout (nl +:+ str_repeat "=" 60));;
        emit (Stdout "✅ MODEL LOADER IS WORKING!");;
        emit (Stdout (str_repeat "=" 60));;
        mret true
      else mret false
  end.

End Startup.

(** The loader a process gets from a configuration that was read. *)
Definition loader_of (proc : loader_process) (parsed : pyval) : loader_runtime :=
  {| ChatGroq := proc_ChatGroq proc; ChatOpenAI := proc_ChatOpenAI proc;
     environ := proc_environ proc; config := parsed |}.

Module ProcessScenario.

(** A process with both client libraries and only the OpenAI key. *)
Definition openai_only : loader_process :=
  {| proc_ChatGroq := Some (Scenario.new_client "ChatGroq");
     proc_ChatOpenAI := Some (Scenario.new_client "ChatOpenAI");
     proc_environ := {[ "OPENAI_API_KEY" := "sk-test" ]};
     read_yaml := fun _ => Ok (config Scenario.loader_no_keys) |}.

End ProcessScenario.

(** ** [app.py]: accounts and sessions ([home], [signup], [signin], [logout]) *)

Module Auth.

(** A call inside a [try] block: its value, or [str(e)] of the exception
    it raised.  The handlers use nothing else of an exception. *)
Inductive attempt (A : Type) : Type :=
| Done (a : A)
| Failed (text : string).
Arguments Done {A} a.
Arguments Failed {A} text.

(** The database and the password hashing, as the handlers call them:
    - [select_user email] stands for opening a cursor, running
      [SELECT * FROM users WHERE email=%s] and [fetchone()];
    - [insert_user name email hash] stands for the [INSERT], the commit and
      closing the cursor;
    - the two functions of [bcrypt]. *)
Record services : Type := {
  select_user : string -> attempt (option pydict);
  insert_user : string -> string -> string -> attempt unit;
  generate_password_hash : string -> attempt string;
  check_password_hash : pyval -> string -> attempt bool;
}.

Inductive effect : Type :=
| Flashed (message category : string)             (* [flash] *)
| UserQuery (email : string)                      (* the [SELECT] was sent *)
| UserInsert (name email password_hash : string). (* the [INSERT] was sent *)

(** What a handler leaves behind: its response, the session and, in
    order, what it did.  The session is the one the statements of the
    handler leave; the templates are not among the sources, and one that
    shows the flashed messages takes the key "_flashes" out of the session
    while it is rendered. *)
Record outcome : Type := {
  resp : response;
  session_after : gmap string pyval;
  effects : list effect;
}.

(** [session.get("_flashes", [])].  Flask alone writes this key, and what it
    writes is a list of pairs; [flashes_ok] says that the session at hand is
    such a session.  On any other, [flash] fails on its [append]. *)
Definition flashes (s : gmap string pyval) : list pyval :=
  match s !! "_flashes" with
  | Some (PList shown) => shown
  | _ => []
  end.

Definition flashes_ok (s : gmap string pyval) : bool :=
  match s !! "_flashes" with
  | None | Some (PList _) => true
  | Some _ => false
  end.

(** [flash(message, category)], as Flask defines it: the pair
    [(category, message)] is appended to the list of the session and the
    list is stored under "_flashes".  The pair is written as a list of two
    texts. *)
Definition flash (message category : string) (s : gmap string pyval)
  : gmap string pyval :=
  <["_flashes" := PList (flashes s ++ [PList [PStr category; PStr message]])]> s.

(** [not field] for a value of [request.form.get] *)
Definition field_missing (field : option string) : bool :=
  match field with
  | None => true
  | Some text => negb (truthy text)
  end.

(** The truth value of a fetched row: [None] and the empty dictionary are
    false. *)
Definition row_found (user : option pydict) : option pydict :=
  match user with
  | Some (column :: columns) => Some (column :: columns)
  | _ => None
  end.

Definition home (req : request) : outcome :=
  match session req !! "logged_in" with
  | None =>
      {| resp := Redirect (url_for "signin"); session_after := session req; effects := [] |}
  | Some _ =>
      {| resp := Render "index.html" []; session_after := session req; effects := [] |}
  end.

Definition logout (req : request) : outcome :=
  {| resp := Redirect (url_for "signin"); session_after := ∅; effects := [] |}.

Section Handlers.

Variable db : services.

Definition signup (req : request) : outcome :=
  let answer (target : string) (done : list effect) (message category : string) :=
    {| resp := Redirect (url_for target);
       session_after := flash message category (session req);
       effects := done ++ [Flashed message category] |} in
  match method req with
  | GET =>
      {| resp := Render "signup.html" []; session_after := session req; effects := [] |}
  | POST =>
      let fullName := form req !! "fullName" in
      let email := form req !! "email" in
      let password := form req !! "password" in
      let confirm_password := form req !! "confirmPassword" in
      if field_missing fullName || field_missing email
         || field_missing password || field_missing confirm_password
      then answer "signup" [] "All fields are required!" "danger"
      else
        let fullName := default EmptyString fullName in
        let email := default EmptyString email in
        let password := default EmptyString password in
        let confirm_password := default EmptyString confirm_password in
        if negb (String.eqb password confirm_password)
        then answer "signup" [] "Passwords do not match!" "danger"
        else
          let failed (done : list effect) (text : string) :=
            answer "signup" done ("Error: " +:+ text) "danger" in
          match select_user db email with
          | Failed text => failed [UserQuery email] text
          | Done user =>
              match row_found user with
              | Some _ =>
                  answer "signup" [UserQuery email] "Email already registered!" "danger"
              | None =>
                  match generate_password_hash db password with
                  | Failed text => failed [UserQuery email] text
                  | Done hashed_password =>
                      let stored := [UserQuery email;
                                     UserInsert fullName email hashed_password] in
                      match insert_user db fullName email hashed_password with
                      | Failed text => failed stored text
                      | Done _ =>
                          answer "signin" stored
                                 "Account created successfully! Please sign in." "success"
                      end
                  end
              end
          end
  end.

Definition signin (req : request) : outcome :=
  let answer (target : string) (s : gmap string pyval) (done : list effect)
      (message category : string) :=
    {| resp := Redirect (url_for target);
       session_after := flash message category s;
       effects := done ++ [Flashed message category] |} in
  match method req with
  | GET =>
      {| resp := Render "signin.html" []; session_after := session req; effects := [] |}
  | POST =>
      let email := form req !! "email" in
      let password := form req !! "password" in
      if field_missing email || field_missing password
      then answer "signin" (session req) [] "Email and password required!" "danger"
      else
        let email := default EmptyString email in
        let password := default EmptyString password in
        let failed (s : gmap string pyval) (text : string) :=
          answer "signin" s [UserQuery email] ("Error 3: " +:+ text) "danger" in
        let refused :=
          answer "signin" (session req) [UserQuery email]
                 "Invalid email or password!" "danger" in
        match select_user db email with
        | Failed text => failed (session req) text
        | Done user =>
            match row_found user with
            | None => refused
            | Some row =>
                match dict_lookup "password" row with
                | None => failed (session req) (PyRepr.str_repr "password")
                | Some stored =>
                    match check_password_hash db stored password with
                    | Failed text => failed (session req) text
                    | Done false => refused
                    | Done true =>
                        let s1 := <["logged_in" := PBool true]> (session req) in
                        match dict_lookup "id" row with
                        | None => failed s1 (PyRepr.str_repr "id")
                        | Some id =>
                            let s2 := <["user_id" := id]> s1 in
                            match dict_lookup "name" row with
                            | None => failed s2 (PyRepr.str_repr "name")
                            | Some name =>
                                let s3 := <["username" := name]> s2 in
                                let s4 := <["name" := name]> s3 in
                                answer "home" s4 [UserQuery email]
                                       ("Welcome " +:+ PyRepr.str name +:+ "!") "success"
                            end
                        end
                    end
                end
            end
        end
  end.

End Handlers.

(** The request a browser sends next: the session is the one the last
    handler left. *)
Definition next_request (previous : outcome) (m : http_method)
    (fields : gmap string string) (uploads : gmap string file_storage) : request :=
  {| method := m; session := session_after previous; form := fields; files := uploads |}.

End Auth.

Module AuthScenario.

(** A database with one account, and a hashing that prefixes the password. *)
Definition ana : pydict :=
  [("id", PInt 7); ("name", PStr "Ana"); ("email", PStr "ana@example.com");
   ("password", PStr "hash:secret")].

Definition db : Auth.services :=
  {| Auth.select_user := fun email =>
       Auth.Done (if String.eqb email "ana@example.com" then Some ana else None);
     Auth.insert_user := fun _ _ _ => Auth.Done tt;
     Auth.generate_password_hash := fun password => Auth.Done ("hash:" +:+ password);
     Auth.check_password_hash := fun stored password =>
       match stored with
       | PStr h => Auth.Done (String.eqb h ("hash:" +:+ password))
       | _ => Auth.Failed "Invalid salt"
       end |}.

(** The same services in front of an empty table. *)
Definition db_empty : Auth.services :=
  {| Auth.select_user := fun _ => Auth.Done None;
     Auth.insert_user := Auth.insert_user db;
     Auth.generate_password_hash := Auth.generate_password_hash db;
     Auth.check_password_hash := Auth.check_password_hash db |}.

(** The same services when the rows come without their "id" column. *)
Definition db_no_id : Auth.services :=
  {| Auth.select_user := fun _ =>
       Auth.Done (Some [("name", PStr "Ana"); ("password", PStr "hash:secret")]);
     Auth.insert_user := Auth.insert_user db;
     Auth.generate_password_hash := Auth.generate_password_hash db;
     Auth.check_password_hash := Auth.check_password_hash db |}.

Definition post (fields : gmap string string) : request :=
  {| method := POST; session := ∅; form := fields; files := ∅ |}.

Definition signin_form (email password : string) : gmap string string :=
  {[ "email" := email; "password" := password ]}.

Definition signup_form (name email password confirm : string) : gmap string string :=
  {[ "fullName" := name; "email" := email;
     "password" := password; "confirmPassword" := confirm ]}.

End AuthScenario.

(** ** Words for the statements about the loader *)

(** [config["llm"][provider]["model_name"]] *)
Definition model_name_of (cfg : pyval) (provider : string) : result pyval :=
  llm_section ← getitem_key cfg "llm";
  provider_section ← getitem_key llm_section provider;
  getitem_key provider_section "model_name".

(** The client class and the environment variable of a provider. *)
Definition provider_class (lr : loader_runtime) (provider : string)
  : option (pyval -> string -> result chat_model) :=
  if String.eqb provider "groq" then ChatGroq lr
  else if String.eqb provider "openai" then ChatOpenAI lr
  else None.

Definition provider_key (provider : string) : string :=
  if String.eqb provider "groq" then "GROQ_API_KEY" else "OPENAI_API_KEY".

Definition provider_class_name (provider : string) : string :=
  if String.eqb provider "groq" then "ChatGroq" else "ChatOpenAI".

Definition provider_title (provider : string) : string :=
  if String.eqb provider "groq" then "Groq" else "OpenAI".

(** * Properties *)

Example allowed_file_examples :
  allowed_file "leaf.jpg" = Ok true /\ allowed_file "photo.gif" = Ok false /\
  humanize_display "Tomato___Early_blight" = "Tomato - Early blight" /\
  humanize_prompt "Tomato___Early_blight" = "Tomato Early blight" /\
  PyStr.replace "aa" "b" "aaaaa" = "bba" /\
  PyStr.rsplit1 "." "a.b.c" = ["a.b"; "c"].
Proof. vm_compute. repeat split. Qed.

Example number_text_examples :
  confidence_text PyNum.NumpyFloat32 (15435039 # 16777216) = "92.0%" /\
  confidence_text PyNum.NumpyFloat32 (15493759 # 16777216) = "92.3499984741211%" /\
  confidence_text PyNum.NumpyFloat64 (PyNum.nearest PyNum.NumpyFloat64 (12345 # 100000))
    = "12.34%" /\
  confidence_text PyNum.PythonFloat (PyNum.nearest PyNum.PythonFloat (12345 # 100000))
    = "12.35%" /\
  confidence_text PyNum.NumpyFloat32 (PyNum.nearest PyNum.NumpyFloat32 (-1 # 100000))
    = "-0.0%" /\
  confidence_text PyNum.NumpyFloat32 1 = "100.0%" /\
  PyNum.float_str (PyNum.nearest PyNum.PythonFloat (2999 # 100)) = "29.99" /\
  PyNum.float_str (PyNum.nearest PyNum.PythonFloat (1 # 100000)) = "1e-05" /\
  PyNum.float_str (PyNum.nearest PyNum.PythonFloat (inject_Z (10 ^ 16))) = "1e+16" /\
  PyNum.float_str
    (PyNum.nearest PyNum.PythonFloat
       (PyNum.nearest PyNum.PythonFloat (1 # 10) + PyNum.nearest PyNum.PythonFloat (2 # 10)))
    = "0.30000000000000004" /\
  PyNum.float_str (-5 # 4) = "-1.25" /\
  PyRepr.str (PList [PInt 3; PStr "it's"; PDict [("a", PFloat (1 # 2)); ("b", PNone)]])
    = "[3, " +:+ String (ascii_of_nat 34) "it's" +:+ String (ascii_of_nat 34) ", {'a': 0.5, 'b': None}]".
Proof. vm_compute. repeat split. Qed.

(** ** Strings *)

Section StringFacts.

Lemma prefix_empty (s : string) : String.prefix EmptyString s = true.
Proof. by destruct s. Qed.

Lemma prefix_char (c d : ascii) (s : string) :
  String.prefix (String c EmptyString) (String d s) = Ascii.eqb c d.
Proof.
  simpl. destruct (ascii_dec c d) as [->|Hne].
  - by rewrite prefix_empty, Ascii.eqb_refl.
  - symmetry. by apply Ascii.eqb_neq.
Qed.

Lemma contains_char_cons (c d : ascii) (s : string) :
  PyStr.contains (String c EmptyString) (String d s)
  = Ascii.eqb c d || PyStr.contains (String c EmptyString) s.
Proof. cbn [PyStr.contains]. by rewrite prefix_char. Qed.

Lemma contains_char_nil (c : ascii) :
  PyStr.contains (String c EmptyString) EmptyString = false.
Proof. reflexivity. Qed.

Lemma contains_char_app (c : ascii) (s1 s2 : string) :
  PyStr.contains (String c EmptyString) (s1 +:+ s2)
  = PyStr.contains (String c EmptyString) s1 || PyStr.contains (String c EmptyString) s2.
Proof.
  induction s1 as [|d s1 IH].
  - by rewrite contains_char_nil.
  - change (String d s1 +:+ s2) with (String d (s1 +:+ s2)).
    rewrite !contains_char_cons, IH. by rewrite orb_assoc.
Qed.

(** [rpartition] on a one-character separator. *)
Lemma rpartition_none (c : ascii) (s : string) :
  PyStr.rpartition (String c EmptyString) s = None
  <-> PyStr.contains (String c EmptyString) s = false.
Proof.
  induction s as [|d s IH].
  - done.
  - rewrite contains_char_cons. cbn [PyStr.rpartition].
    rewrite prefix_char.
    destruct (PyStr.rpartition (String c EmptyString) s) as [[a b]|].
    + split; [done|]. intros [_ H]%orb_false_iff. apply IH in H. done.
    + destruct IH as [IH _]. rewrite (IH eq_refl), orb_false_r.
      by destruct (Ascii.eqb c d).
Qed.

Lemma rpartition_some (c : ascii) (s before after : string) :
  PyStr.rpartition (String c EmptyString) s = Some (before, after)
  <-> s = before +:+ String c after
      /\ PyStr.contains (String c EmptyString) after = false.
Proof.
  revert before after. induction s as [|d s IH]; intros before after.
  - split; [done|]. intros [H _]. by destruct before.
  - cbn [PyStr.rpartition]. rewrite prefix_char.
    pose proof (rpartition_none c s) as Hnone.
    destruct (PyStr.rpartition (String c EmptyString) s) as [[a b]|].
    + destruct (IH a b) as [[-> Hb] _]; [done|]. split.
      * by intros [= <- <-].
      * intros [Hs Hafter]. destruct before as [|e before'].
        -- injection Hs as -> <-.
           rewrite contains_char_app, contains_char_cons, Ascii.eqb_refl in Hafter.
           by rewrite orb_true_r in Hafter.
        -- injection Hs as -> Hs.
           destruct (IH before' after) as [_ H].
           specialize (H (conj Hs Hafter)). by injection H as -> ->.
    + destruct Hnone as [Hnone _]. specialize (Hnone eq_refl).
      destruct (Ascii.eqb c d) eqn:Hcd.
      * apply Ascii.eqb_eq in Hcd as <-. cbn [String.length PyStr.drop]. split.
        -- by intros [= <- <-].
        -- intros [Hs Hafter]. destruct before as [|e before'].
           ++ by injection Hs as ->.
           ++ injection Hs as -> Hs. rewrite Hs in Hnone.
              rewrite contains_char_app, contains_char_cons, Ascii.eqb_refl in Hnone.
              by rewrite orb_true_r in Hnone.
      * split; [done|]. intros [Hs Hafter]. destruct before as [|e before'].
        -- injection Hs as -> _. by rewrite Ascii.eqb_refl in Hcd.
        -- injection Hs as -> Hs. rewrite Hs in Hnone.
           rewrite contains_char_app, contains_char_cons, Ascii.eqb_refl in Hnone.
           by rewrite orb_true_r in Hnone.
Qed.

(** After [replace("_", " ")] no underscore is left, whatever was skipped
    before. *)
Lemma replace_underscore_go (skip : nat) (s : string) :
  PyStr.contains "_" (PyStr.replace_go "_" " " skip s) = false.
Proof.
  revert skip. induction s as [|c s IH]; intros skip; [done|].
  cbn [PyStr.replace_go]. destruct skip as [|k]; [|apply IH].
  rewrite prefix_char. destruct (Ascii.eqb "_" c) eqn:Hc.
  - change (" " +:+ ?x) with (String " "%char x).
    rewrite contains_char_cons. simpl String.length. simpl Nat.sub.
    by rewrite IH.
  - by rewrite contains_char_cons, Hc, IH.
Qed.

End StringFacts.

(** ** Upload validation *)

Lemma allowed_extension_elem (ext : string) :
  ext ∈ ALLOWED_EXTENSIONS <-> ext = "png" \/ ext = "jpg" \/ ext = "jpeg".
Proof.
  unfold ALLOWED_EXTENSIONS. rewrite !elem_of_union, !elem_of_singleton. tauto.
Qed.

Lemma allowed_file_total (filename : string) :
  exists b : bool, allowed_file filename = Ok b.
Proof.
  unfold allowed_file.
  destruct (PyStr.contains "." filename) eqn:Hdot; [|by eexists].
  unfold PyStr.rsplit1.
  destruct (PyStr.rpartition "." filename) as [[a b]|] eqn:Hp.
  - by eexists.
  - apply rpartition_none in Hp. congruence.
Qed.

Lemma allowed_file_true (filename : string) :
  allowed_file filename = Ok true <-> extension_allowed filename.
Proof.
  unfold allowed_file, extension_allowed. split.
  - destruct (PyStr.contains "." filename) eqn:Hdot; [|done].
    unfold PyStr.rsplit1.
    destruct (PyStr.rpartition "." filename) as [[a b]|] eqn:Hp.
    + apply rpartition_some in Hp as [-> Hb]. cbn.
      intros [= Hin%bool_decide_eq_true%allowed_extension_elem].
      by exists a, b.
    + apply rpartition_none in Hp. congruence.
  - intros (stem & ext & -> & Hext & Hlow).
    assert (PyStr.rpartition "." (stem +:+ "." +:+ ext) = Some (stem, ext)) as Hp
      by (apply rpartition_some; done).
    change ("." +:+ ext) with (String "."%char ext) in *.
    rewrite contains_char_app, contains_char_cons, Ascii.eqb_refl, orb_true_r.
    unfold PyStr.rsplit1. rewrite Hp. cbn. f_equal.
    by apply bool_decide_eq_true, allowed_extension_elem.
Qed.

(** C10: [allowed_file] never raises, and it accepts a file name exactly when
    the name has a dot and the text after its last dot is, in any case of
    letters, png, jpg or jpeg.  A name without a dot (such as "png") is
    rejected, an upper-case extension ("LEAF.JPG") is accepted. *)
Theorem allowed_file_spec (filename : string) :
  (allowed_file filename = Ok true <-> extension_allowed filename) /\
  (allowed_file filename = Ok false <-> ~ extension_allowed filename) /\
  (PyStr.contains "." filename = false -> allowed_file filename = Ok false) /\
  allowed_file "png" = Ok false /\
  allowed_file "LEAF.JPG" = Ok true.
Proof.
  pose proof (allowed_file_true filename) as Htrue.
  destruct (allowed_file_total filename) as [b Hb].
  split_and!; [done| | |done|done].
  - rewrite <- Htrue, Hb. destruct b; split; congruence.
  - intros Hdot. unfold allowed_file. by rewrite Hdot.
Qed.

(** ** Label humanisation *)

(** C4: whatever the label, neither the displayed name nor the name put in
    the prompt has an underscore left. *)
Theorem humanize_no_underscore (disease : string) :
  PyStr.contains "_" (humanize_display disease) = false /\
  PyStr.contains "_" (humanize_prompt disease) = false.
Proof. split; apply replace_underscore_go. Qed.

(** ** The trace monad *)

Section Steady.

Context {A B : Type}.

Lemma steady_ret (a : A) : steady (mret a).
Proof. intros t. cbn. by rewrite app_nil_r. Qed.

Lemma steady_lift (r : result A) : steady (lift r).
Proof. intros t. cbn. by rewrite app_nil_r. Qed.

Lemma steady_raise (e : exn) : steady (raise e : M A).
Proof. intros t. cbn. by rewrite app_nil_r. Qed.

Lemma steady_emit (ev : event) : steady (emit ev).
Proof. by intros t. Qed.

Lemma steady_bind (m : M A) (f : A -> M B) :
  steady m -> (forall a, steady (f a)) -> steady (m ≫= f).
Proof.
  intros Hm Hf t. unfold run, mbind, M_bind.
  rewrite (Hm t). unfold run.
  destruct (m []) as [[a|e] t1]; cbn.
  - rewrite (Hf a (t ++ t1)), (Hf a t1). unfold run. cbn.
    by rewrite app_assoc.
  - done.
Qed.

(** The outcome of a sequence, from the outcomes of its parts. *)
Lemma outcome_bind (m : M A) (f : A -> M B) :
  (forall a, steady (f a)) ->
  fst (run (m ≫= f)) = fst (run m) ≫= (fun a => fst (run (f a))).
Proof.
  intros Hf. unfold run, mbind, M_bind, result_bind.
  destruct (m []) as [[a|e] t1]; cbn; [|done].
  by rewrite (Hf a t1).
Qed.

(** The trace of a sequence, from the traces of its parts. *)
Lemma trace_bind (m : M A) (f : A -> M B) :
  (forall a, steady (f a)) ->
  snd (run (m ≫= f))
  = snd (run m) ++ match fst (run m) with
                   | Ok a => snd (run (f a))
                   | Raise _ => []
                   end.
Proof.
  intros Hf. unfold run, mbind, M_bind.
  destruct (m []) as [[a|e] t1]; cbn.
  - by rewrite (Hf a t1).
  - by rewrite app_nil_r.
Qed.

End Steady.

Ltac solve_steady :=
  repeat first
    [ apply steady_ret | apply steady_lift | apply steady_raise | apply steady_emit
    | apply steady_bind; [|intros ?]
    | match goal with |- steady (match ?x with _ => _ end) => destruct x end
    | match goal with |- steady (if ?x then _ else _) => destruct x end ].

Lemma preprocess_image_steady (rt : runtime) (path : string) :
  steady (preprocess_image rt path).
Proof. unfold preprocess_image. solve_steady. Qed.

Lemma predict_disease_steady (rt : runtime) (path : string) :
  steady (predict_disease rt path).
Proof.
  unfold predict_disease.
  apply steady_bind; [apply steady_emit|intros _].
  destruct (model rt); [|apply steady_ret].
  apply steady_bind; [apply preprocess_image_steady|intros processed].
  destruct processed; solve_steady.
Qed.

(** The outcome of [preprocess_image] is that of [cv2.imread]. *)
Lemma preprocess_image_outcome (rt : runtime) (path : string) :
  fst (run (preprocess_image rt path))
  = Ok ((fun img => [resize rt (cvtColor_BGR2RGB img) (224, 224)%nat]) <$> imread rt path).
Proof. unfold preprocess_image, run. cbn. by destruct (imread rt path). Qed.

(** ** The classifier *)

(** C2: [predict_disease] returns, and does not raise, in its two guarded
    cases: with no classifier loaded the pair is ("Model not loaded", 0.0);
    with a classifier, when [preprocess_image] gives [None], the pair is
    ("Processing failed", 0.0). *)
Theorem predict_disease_sentinels (rt : runtime) (img_path : string) :
  (model rt = None ->
   fst (run (predict_disease rt img_path)) = Ok ("Model not loaded", 0%Q)) /\
  (model rt <> None ->
   fst (run (preprocess_image rt img_path)) = Ok None ->
   fst (run (predict_disease rt img_path)) = Ok ("Processing failed", 0%Q)).
Proof.
  unfold predict_disease.
  rewrite outcome_bind by (intros _; destruct (model rt); [|apply steady_ret];
    apply steady_bind; [apply preprocess_image_steady|intros [?|]; solve_steady]).
  cbn [run emit fst mbind result_bind].
  split.
  - intros ->. reflexivity.
  - intros Hmodel Hpre. destruct (model rt) as [classifier|]; [|done].
    rewrite outcome_bind by (intros [?|]; solve_steady).
    rewrite Hpre. reflexivity.
Qed.

Lemma predict_disease_sentinels_witness :
  fst (run (predict_disease Scenario.rt_no_model "static/uploads/leaf.jpg"))
    = Ok ("Model not loaded", 0%Q) /\
  fst (run (predict_disease Scenario.rt_undecodable "static/uploads/leaf.jpg"))
    = Ok ("Processing failed", 0%Q).
Proof.
  split.
  - apply (proj1 (predict_disease_sentinels Scenario.rt_no_model _)). reflexivity.
  - apply (proj2 (predict_disease_sentinels Scenario.rt_undecodable _)).
    + discriminate.
    + reflexivity.
Defined.

(** ** The log-in gate and the [/analyze] handler *)

Lemma chain_invoke_steady (rt : runtime) (chain : chat_model) (d w : string) :
  steady (chain_invoke rt chain d w).
Proof. unfold chain_invoke. solve_steady. Qed.

Ltac solve_steady_app :=
  repeat first
    [ apply predict_disease_steady | apply chain_invoke_steady
    | apply steady_ret | apply steady_lift | apply steady_raise | apply steady_emit
    | apply steady_bind; [|intros ?]
    | match goal with |- steady (match ?x with _ => _ end) => destruct x end
    | match goal with |- steady (if ?x then _ else _) => destruct x end
    | match goal with |- steady (let 'pair _ _ := ?x in _) => destruct x end ].

Lemma allowed_file_truthy (filename : string) :
  allowed_file filename = Ok true -> truthy filename = true.
Proof. by destruct filename. Qed.

(** An accepted upload goes through the whole pipeline: once the classifier
    has answered, the outcome of the handler is that of the weather line and
    of the chain. *)
Lemma analyze_accepted (rt : runtime) (req : request) (file : file_storage)
    (city disease : string) (confidence : Q) :
  is_Some (session req !! "logged_in") ->
  method req = POST ->
  files req !! "file" = Some file ->
  allowed_file (fs_filename file) = Ok true ->
  form req !! "city" = Some city ->
  truthy city = true ->
  let filename := secure_filename rt (fs_filename file) in
  fst (run (predict_disease rt (path_join UPLOAD_FOLDER filename))) = Ok (disease, confidence) ->
  fst (run (analyze rt req))
  = (weather_summary ← weather_summary_of (get_current_weather rt city);
     chain ← build_chain (llm rt);
     mret (Render "analyze.html"
             [("filename", filename);
              ("disease", humanize_display disease);
              ("confidence", confidence_text (output_kind rt) confidence);
              ("weather", weather_summary);
              ("city", city);
              ("remedy", markdown rt (llm_reply rt chain
                  (PLANT_CARE_PROMPT (humanize_prompt disease) weather_summary)))])).
Proof.
  intros [v Hsession] Hmethod Hfile Hallowed Hcity Htruthy filename Hpredict.
  unfold analyze, login_required, analyze_view.
  rewrite Hsession, Hmethod, Hfile, (allowed_file_truthy _ Hallowed), Hallowed, Hcity.
  rewrite outcome_bind by (intros ?; solve_steady_app).
  cbn [run lift fst mbind result_bind andb]. rewrite Htruthy.
  rewrite outcome_bind by (intros ?; solve_steady_app).
  cbn [run emit fst mbind result_bind].
  rewrite outcome_bind by (intros ?; solve_steady_app).
  fold filename. rewrite Hpredict. cbn [mbind result_bind].
  rewrite outcome_bind by (intros ?; solve_steady_app).
  cbn [run emit fst mbind result_bind].
  rewrite outcome_bind by (intros ?; solve_steady_app).
  cbn [run lift fst].
  destruct (weather_summary_of (get_current_weather rt city)) as [summary|e];
    cbn [mbind result_bind]; [|done].
  rewrite outcome_bind by (intros ?; solve_steady_app).
  cbn [run lift fst].
  destruct (build_chain (llm rt)) as [chain|e]; cbn [mbind result_bind]; [|done].
  reflexivity.
Qed.

(** C8: a request to [/analyze] with no ['logged_in'] key in the session,
    whatever its method and its form, is answered by a redirect to the
    sign-in route; the only effect is the flashed message, so neither
    [predict_disease] nor [preprocess_image] is entered. *)
Theorem analyze_requires_login (rt : runtime) (req : request) :
  session req !! "logged_in" = None ->
  run (analyze rt req)
  = (Ok (Redirect (url_for "signin")),
     [Flash "Please log in to access this page." "warning"]) /\
  url_for "signin" = "/signin" /\
  Forall (fun ev => is_classifier_event ev = false) (snd (run (analyze rt req))).
Proof.
  intros Hsession.
  assert (run (analyze rt req)
          = (Ok (Redirect (url_for "signin")),
             [Flash "Please log in to access this page." "warning"])) as Hrun.
  { unfold analyze, login_required. by rewrite Hsession. }
  rewrite Hrun. split_and!; [done|done|].
  by repeat constructor.
Qed.

Lemma analyze_requires_login_witness :
  run (analyze Scenario.rt (Scenario.upload "leaf.jpg" "Mumbai" false))
  = (Ok (Redirect "/signin"), [Flash "Please log in to access this page." "warning"]).
Proof.
  apply (proj1 (analyze_requires_login Scenario.rt
                  (Scenario.upload "leaf.jpg" "Mumbai" false) eq_refl)).
Defined.

(** C9: for a logged-in POST with no accepted file name (the uploaded name
    has no extension of the allow-list, or there is no upload), or with a
    missing or empty city field, the handler renders the blank form and has
    no effect at all: nothing is saved and the classifier is not entered. *)
Theorem analyze_rejects_invalid_upload (rt : runtime) (req : request) :
  is_Some (session req !! "logged_in") ->
  method req = POST ->
  (forall file, files req !! "file" = Some file -> ~ extension_allowed (fs_filename file))
    \/ form req !! "city" = None
    \/ form req !! "city" = Some EmptyString ->
  run (analyze rt req) = (Ok (Render "analyze.html" []), []).
Proof.
  intros [v Hsession] Hmethod Hinvalid.
  unfold analyze, login_required, analyze_view.
  rewrite Hsession, Hmethod.
  destruct (files req !! "file") as [file|]; [|done].
  destruct (truthy (fs_filename file)); [|done].
  destruct (allowed_file_total (fs_filename file)) as [allowed Hallowed].
  unfold run, mbind, M_bind, lift. rewrite Hallowed.
  destruct Hinvalid as [Hext|[Hcity|Hcity]].
  - destruct allowed.
    + apply allowed_file_true in Hallowed. by destruct (Hext file).
    + by destruct (form req !! "city").
  - by rewrite Hcity.
  - rewrite Hcity. by rewrite andb_false_r.
Qed.

Lemma analyze_rejects_invalid_upload_witness :
  run (analyze Scenario.rt (Scenario.upload "photo.gif" "Mumbai" true))
    = (Ok (Render "analyze.html" []), []) /\
  run (analyze Scenario.rt (Scenario.upload "leaf.jpg" EmptyString true))
    = (Ok (Render "analyze.html" []), []).
Proof.
  split.
  - apply (analyze_rejects_invalid_upload Scenario.rt
             (Scenario.upload "photo.gif" "Mumbai" true)).
    + by eexists.
    + reflexivity.
    + left. intros file [= <-] Hallowed%allowed_file_true.
      vm_compute in Hallowed. discriminate.
  - apply (analyze_rejects_invalid_upload Scenario.rt
             (Scenario.upload "leaf.jpg" EmptyString true)).
    + by eexists.
    + reflexivity.
    + right. right. reflexivity.
Defined.

(** ** The weather line *)

(** C3: when the weather payload has no "main" key, the weather line of
    [analyze] is the literal "Weather data unavailable", and that is the text
    an accepted upload shows as its weather. *)
Theorem weather_unavailable_without_main (rt : runtime) (req : request)
    (file : file_storage) (city disease : string) (confidence : Q)
    (chain : chat_model) :
  is_Some (session req !! "logged_in") ->
  method req = POST ->
  files req !! "file" = Some file ->
  allowed_file (fs_filename file) = Ok true ->
  form req !! "city" = Some city ->
  truthy city = true ->
  fst (run (predict_disease rt
              (path_join UPLOAD_FOLDER (secure_filename rt (fs_filename file)))))
    = Ok (disease, confidence) ->
  llm rt = Some chain ->
  dict_lookup "main" (get_current_weather rt city) = None ->
  weather_summary_of (get_current_weather rt city) = Ok "Weather data unavailable" /\
  fst (run (analyze rt req))
  = Ok (Render "analyze.html"
          [("filename", secure_filename rt (fs_filename file));
           ("disease", humanize_display disease);
           ("confidence", confidence_text (output_kind rt) confidence);
           ("weather", "Weather data unavailable");
           ("city", city);
           ("remedy", markdown rt (llm_reply rt chain
               (PLANT_CARE_PROMPT (humanize_prompt disease) "Weather data unavailable")))]).
Proof.
  intros Hsession Hmethod Hfile Hallowed Hcity Htruthy Hpredict Hllm Hmain.
  assert (weather_summary_of (get_current_weather rt city)
          = Ok "Weather data unavailable") as Hsummary.
  { unfold weather_summary_of, dict_contains. by rewrite Hmain. }
  split; [done|].
  rewrite (analyze_accepted rt req file city disease confidence) by done.
  by rewrite Hsummary, Hllm.
Qed.

Lemma weather_unavailable_without_main_witness :
  weather_summary_of (Scenario.weather_error "Atlantis") = Ok "Weather data unavailable" /\
  fst (run (analyze Scenario.rt_no_weather (Scenario.upload "leaf.jpg" "Atlantis" true)))
  = Ok (Render "analyze.html"
          [("filename", "leaf.jpg");
           ("disease", "Tomato - Early blight");
           ("confidence", "92.0%");
           ("weather", "Weather data unavailable");
           ("city", "Atlantis");
           ("remedy", "<h2>Early blight</h2>")]).
Proof.
  apply (weather_unavailable_without_main Scenario.rt_no_weather
           (Scenario.upload "leaf.jpg" "Atlantis" true) {| fs_filename := "leaf.jpg" |}
           "Atlantis" "Tomato___Early_blight" (15435039 # 16777216) Scenario.handle).
  - by eexists.
  - reflexivity.
  - reflexivity.
  - reflexivity.
  - reflexivity.
  - reflexivity.
  - reflexivity.
  - reflexivity.
  - reflexivity.
Defined.


(** ** The confidence field *)

Lemma round_half_even_exact (x : Q) (k : Z) :
  (x == inject_Z k)%Q -> PyNum.round_half_even x = k.
Proof.
  unfold Qeq, PyNum.round_half_even. cbn [Qnum Qden inject_Z].
  rewrite Z.mul_1_r. intros ->.
  rewrite Z.div_mul, Z.mod_mul by done.
  replace (2 * 0)%Z with 0%Z by done. done.
Qed.

(** A rounding to the nearest integer is off by a half at most. *)
Lemma round_half_even_near (x : Q) :
  (Qabs (inject_Z (PyNum.round_half_even x) - x) <= 1 # 2)%Q.
Proof.
  destruct x as [n d]. unfold PyNum.round_half_even. cbn [Qnum Qden].
  pose proof (Z.div_mod n (Z.pos d) ltac:(done)) as Hdiv.
  pose proof (Z.mod_pos_bound n (Z.pos d) ltac:(done)) as Hmod.
  set (q := (n / Z.pos d)%Z) in *. set (r := (n mod Z.pos d)%Z) in *.
  clearbody q r.
  assert (forall k : Z,
            (2 * Z.abs (k * Z.pos d - n) <= Z.pos d)%Z ->
            (Qabs (inject_Z k - (n # d)) <= 1 # 2)%Q) as Hbound.
  { intros k Hk. apply Qabs_Qle_condition.
    unfold Qle, Qminus, Qplus, Qopp, inject_Z. cbn [Qnum Qden].
    split; lia. }
  assert ((q * Z.pos d - n = - r)%Z /\ ((q + 1) * Z.pos d - n = Z.pos d - r)%Z)
    as [Hlow Hhigh] by (subst n; split; ring).
  destruct (Z.compare_spec (2 * r) (Z.pos d)) as [Hcmp'|Hcmp'|Hcmp'].
  - destruct (Z.even q); apply Hbound; [rewrite Hlow, Z.abs_opp|rewrite Hhigh];
      rewrite Z.abs_eq; clear Hdiv Hlow Hhigh Hbound; lia.
  - apply Hbound.
    rewrite Hlow, Z.abs_opp, Z.abs_eq; clear Hdiv Hlow Hhigh Hbound; lia.
  - apply Hbound.
    rewrite Hhigh, Z.abs_eq; clear Hdiv Hlow Hhigh Hbound; lia.
Qed.

Lemma nearest_Qeq (kind : PyNum.float_kind) (x y : Q) :
  (x == y)%Q -> PyNum.nearest kind x = PyNum.nearest kind y.
Proof. intros Heq. unfold PyNum.nearest. by rewrite (Qred_complete x y Heq). Qed.

Lemma confidence_text_Qeq (kind : PyNum.float_kind) (c1 c2 : Q) :
  (c1 == c2)%Q -> confidence_text kind c1 = confidence_text kind c2.
Proof.
  intros Heq. unfold confidence_text, Qltb.
  rewrite (nearest_Qeq kind (c1 * 100) (c2 * 100)) by (by rewrite Heq).
  by rewrite Heq.
Qed.

(** The sentinels: the field of the Python float 0.0 is "0.0%" whatever
    the kind of the classifier's numbers. *)
Lemma confidence_text_zero (kind : PyNum.float_kind) : confidence_text kind 0 = "0.0%".
Proof. destruct kind; by vm_compute. Qed.

(** The float nearest to 0.92, of each kind. *)
Lemma confidence_text_92 (kind : PyNum.float_kind) (confidence : Q) :
  (confidence == PyNum.nearest kind (92 # 100))%Q ->
  confidence_text kind confidence = "92.0%".
Proof.
  intros Hconf. rewrite (confidence_text_Qeq kind _ _ Hconf).
  destruct kind; by vm_compute.
Qed.

(** The rounding of the confidence field: the number shown is the float
    nearest to a whole number of hundredths, and this whole number is within
    a half of what the field scales by a hundred. *)
Lemma confidence_text_hundredths (kind : PyNum.float_kind) (confidence : Q) :
  (0 <= confidence)%Q ->
  exists k : Z,
    confidence_text kind confidence
    = PyNum.float_str (PyNum.nearest kind (inject_Z k / inject_Z 100)) +:+ "%" /\
    (Qabs (inject_Z k
           - PyNum.scaled kind (PyNum.nearest kind (confidence * 100)) 2) <= 1 # 2)%Q.
Proof.
  intros Hsign.
  exists (PyNum.round_half_even
            (PyNum.scaled kind (PyNum.nearest kind (confidence * 100)) 2)).
  split; [|apply round_half_even_near].
  unfold confidence_text, Qltb.
  apply Qle_bool_iff in Hsign. rewrite Hsign, andb_false_r. reflexivity.
Qed.

(** C6: with a classifier answer whose confidence is the float nearest to
    0.92, of the kind of number the classifier gives, and the weather payload
    {main: {temp: 30}, weather: [{description: "clear sky"}]}, an accepted
    upload is rendered with the confidence "92.0%" and the weather
    "Clear sky, 30°C".  In general the confidence field is the percentage
    rounded to two decimals: the text of the float nearest to a whole number
    of hundredths, which is the integer nearest to the scaled percentage,
    followed by the percent sign; this for every confidence from 0 to 1. *)
Theorem analyze_renders_scenario (rt : runtime) (req : request)
    (file : file_storage) (city disease : string) (confidence : Q)
    (chain : chat_model) :
  is_Some (session req !! "logged_in") ->
  method req = POST ->
  files req !! "file" = Some file ->
  allowed_file (fs_filename file) = Ok true ->
  form req !! "city" = Some city ->
  truthy city = true ->
  fst (run (predict_disease rt
              (path_join UPLOAD_FOLDER (secure_filename rt (fs_filename file)))))
    = Ok (disease, confidence) ->
  (confidence == PyNum.nearest (output_kind rt) (92 # 100))%Q ->
  get_current_weather rt city
    = [("main", PDict [("temp", PInt 30)]);
       ("weather", PList [PDict [("description", PStr "clear sky")]])] ->
  llm rt = Some chain ->
  fst (run (analyze rt req))
  = Ok (Render "analyze.html"
          [("filename", secure_filename rt (fs_filename file));
           ("disease", humanize_display disease);
           ("confidence", "92.0%");
           ("weather", "Clear sky, 30°C");
           ("city", city);
           ("remedy", markdown rt (llm_reply rt chain
               (PLANT_CARE_PROMPT (humanize_prompt disease) "Clear sky, 30°C")))]) /\
  (forall c : Q, (0 <= c)%Q -> (c <= 1)%Q -> exists k : Z,
     confidence_text (output_kind rt) c
     = PyNum.float_str (PyNum.nearest (output_kind rt) (inject_Z k / inject_Z 100))
       +:+ "%" /\
     (Qabs (inject_Z k
            - PyNum.scaled (output_kind rt) (PyNum.nearest (output_kind rt) (c * 100)) 2)
      <= 1 # 2)%Q).
Proof.
  intros Hsession Hmethod Hfile Hallowed Hcity Htruthy Hpredict Hconf Hweather Hllm.
  split; [|intros c Hsign _; by apply confidence_text_hundredths].
  rewrite (analyze_accepted rt req file city disease confidence) by done.
  rewrite Hweather, Hllm, (confidence_text_92 _ _ Hconf). reflexivity.
Qed.

Lemma analyze_renders_scenario_witness :
  fst (run (analyze Scenario.rt (Scenario.upload "leaf.jpg" "Mumbai" true)))
  = Ok (Render "analyze.html"
          [("filename", "leaf.jpg");
           ("disease", "Tomato - Early blight");
           ("confidence", "92.0%");
           ("weather", "Clear sky, 30°C");
           ("city", "Mumbai");
           ("remedy", "<h2>Early blight</h2>")]).
Proof.
  apply (analyze_renders_scenario Scenario.rt
           (Scenario.upload "leaf.jpg" "Mumbai" true) {| fs_filename := "leaf.jpg" |}
           "Mumbai" "Tomato___Early_blight" (15435039 # 16777216) Scenario.handle).
  - by eexists.
  - reflexivity.
  - reflexivity.
  - reflexivity.
  - reflexivity.
  - reflexivity.
  - reflexivity.
  - by vm_compute.
  - reflexivity.
  - reflexivity.
Defined.

(** ** Advice without a language model *)

(** The guard of [get_combined_advice]: with no handle it answers at once,
    and nothing is called. *)
Lemma get_combined_advice_unavailable (rt : runtime) (disease_name city : string) :
  llm rt = None ->
  run (get_combined_advice rt disease_name city) = (Ok "AI advice unavailable.", []).
Proof. intros Hllm. unfold get_combined_advice. by rewrite Hllm. Qed.

(** [analyze] has no such guard: with no handle an accepted upload never
    gets a page, the handler raises. *)
Lemma analyze_without_llm (rt : runtime) (req : request) (file : file_storage)
    (city disease : string) (confidence : Q) :
  is_Some (session req !! "logged_in") ->
  method req = POST ->
  files req !! "file" = Some file ->
  allowed_file (fs_filename file) = Ok true ->
  form req !! "city" = Some city ->
  truthy city = true ->
  fst (run (predict_disease rt
              (path_join UPLOAD_FOLDER (secure_filename rt (fs_filename file)))))
    = Ok (disease, confidence) ->
  llm rt = None ->
  exists e, fst (run (analyze rt req)) = Raise e /\
            (is_ok (weather_summary_of (get_current_weather rt city)) = true -> e = TypeError).
Proof.
  intros Hsession Hmethod Hfile Hallowed Hcity Htruthy Hpredict Hllm.
  rewrite (analyze_accepted rt req file city disease confidence) by done.
  rewrite Hllm.
  destruct (weather_summary_of (get_current_weather rt city)) as [summary|e].
  - by exists TypeError.
  - exists e. split; [done|]. discriminate.
Qed.

(** C1 (the code departs from the claim): with no language-model handle,
    [get_combined_advice] returns "AI advice unavailable." and calls nothing,
    but the [analyze] request path does not go through it: on an accepted
    upload it builds the chain itself and raises [TypeError].  No model call
    is made on either path. *)
Theorem analyze_without_llm_raises :
  let rt := Scenario.rt_no_llm in
  let req := Scenario.upload "leaf.jpg" "Mumbai" true in
  llm rt = None /\
  run (get_combined_advice rt "Tomato___Early_blight" "Mumbai")
    = (Ok "AI advice unavailable.", []) /\
  run (analyze rt req)
    = (Raise TypeError,
       [FileSave "static/uploads/leaf.jpg";
        CallPredictDisease "static/uploads/leaf.jpg";
        CallPreprocessImage "static/uploads/leaf.jpg";
        ModelPredict;
        WeatherCurrent "Mumbai"]) /\
  Forall (fun ev => is_llm_event ev = false) (snd (run (analyze rt req))).
Proof.
  cbv zeta. split_and!.
  - reflexivity.
  - reflexivity.
  - reflexivity.
  - vm_compute. by repeat constructor.
Qed.

(** ** The model loader *)

(** C7: [load_llm] fails in three ways that a caller can tell apart.  A
    provider other than "groq" and "openai" raises [ValueError] with the text
    "Unsupported provider: ..."; a supported provider whose client class is
    [None] (the import failed) raises [ImportError]; a supported provider
    with its client class but no API key in the environment raises
    [ValueError] with the text "... missing! ...".  In each case the only
    effect is the first [print]: no client is built and no model is called. *)
Theorem load_llm_failures (lr : loader_runtime) (provider : string) :
  let started := [Stdout ("LLM loading for provider: " +:+ provider)] in
  (provider <> "groq" -> provider <> "openai" ->
   run (load_llm lr provider)
   = (Raise (ValueError ("Unsupported provider: " +:+ provider)), started)) /\
  (provider = "groq" -> ChatGroq lr = None ->
   run (load_llm lr provider)
   = (Raise (ImportError
        "langchain_groq is not installed. Install it using: pip install langchain-groq"),
      started)) /\
  (provider = "openai" -> ChatOpenAI lr = None ->
   run (load_llm lr provider)
   = (Raise (ImportError
        "langchain_openai is not installed. Install it using: pip install langchain-openai"),
      started)) /\
  (provider = "groq" -> ChatGroq lr <> None -> environ lr !! "GROQ_API_KEY" = None ->
   run (load_llm lr provider)
   = (Raise (ValueError "GROQ_API_KEY missing! Check your .env file."), started)) /\
  (provider = "openai" -> ChatOpenAI lr <> None -> environ lr !! "OPENAI_API_KEY" = None ->
   run (load_llm lr provider)
   = (Raise (ValueError "OPENAI_API_KEY missing! Check your .env file."), started)) /\
  Forall (fun ev => is_llm_event ev = false) started /\
  ValueError ("Unsupported provider: " +:+ provider)
    <> ValueError "GROQ_API_KEY missing! Check your .env file." /\
  ValueError ("Unsupported provider: " +:+ provider)
    <> ValueError "OPENAI_API_KEY missing! Check your .env file.".
Proof.
  cbv zeta. unfold load_llm, run. split_and!.
  - intros Hgroq%String.eqb_neq Hopenai%String.eqb_neq.
    cbn. by rewrite Hgroq, Hopenai.
  - intros -> Hclass. cbn. by rewrite Hclass.
  - intros -> Hclass. cbn. by rewrite Hclass.
  - intros -> Hclass Hkey. cbn. destruct (ChatGroq lr); [|done]. by rewrite Hkey.
  - intros -> Hclass Hkey. cbn. destruct (ChatOpenAI lr); [|done]. by rewrite Hkey.
  - by repeat constructor.
  - discriminate.
  - discriminate.
Qed.

Lemma load_llm_failures_witness :
  run (load_llm Scenario.loader_no_keys "anthropic")
  = (Raise (ValueError "Unsupported provider: anthropic"),
     [Stdout "LLM loading for provider: anthropic"]) /\
  run (load_llm Scenario.loader_no_libraries "groq")
  = (Raise (ImportError
       "langchain_groq is not installed. Install it using: pip install langchain-groq"),
     [Stdout "LLM loading for provider: groq"]) /\
  run (load_llm Scenario.loader_no_libraries "openai")
  = (Raise (ImportError
       "langchain_openai is not installed. Install it using: pip install langchain-openai"),
     [Stdout "LLM loading for provider: openai"]) /\
  run (load_llm Scenario.loader_no_keys "groq")
  = (Raise (ValueError "GROQ_API_KEY missing! Check your .env file."),
     [Stdout "LLM loading for provider: groq"]) /\
  run (load_llm Scenario.loader_no_keys "openai")
  = (Raise (ValueError "OPENAI_API_KEY missing! Check your .env file."),
     [Stdout "LLM loading for provider: openai"]).
Proof.
  split_and!.
  - apply (proj1 (load_llm_failures Scenario.loader_no_keys "anthropic")); discriminate.
  - apply (proj1 (proj2 (load_llm_failures Scenario.loader_no_libraries "groq")));
      reflexivity.
  - apply (proj1 (proj2 (proj2 (load_llm_failures Scenario.loader_no_libraries "openai"))));
      reflexivity.
  - apply (proj1 (proj2 (proj2 (proj2 (load_llm_failures Scenario.loader_no_keys "groq")))));
      [reflexivity|discriminate|reflexivity].
  - apply (proj1 (proj2 (proj2 (proj2 (proj2
             (load_llm_failures Scenario.loader_no_keys "openai"))))));
      [reflexivity|discriminate|reflexivity].
Defined.

(** ** Arg-max selection *)

Lemma Qltb_true (x y : Q) : Qltb x y = true <-> (x < y)%Q.
Proof.
  unfold Qltb. rewrite negb_true_iff, <- not_true_iff_false, Qle_bool_iff.
  split; [apply Qnot_le_lt | apply Qlt_not_le].
Qed.

Lemma Qltb_false (x y : Q) : Qltb x y = false <-> (y <= x)%Q.
Proof. unfold Qltb. by rewrite negb_false_iff, Qle_bool_iff. Qed.

(** The invariant of the scan: [pre] is what has been read, [best] its
    largest entry and [best_i] the first place where it stands. *)
Lemma argmax_scan (v pre : list Q) (best : Q) (best_i : nat) :
  pre !! best_i = Some best ->
  (forall j y, pre !! j = Some y -> (y <= best)%Q) ->
  (forall j y, (j < best_i)%nat -> pre !! j = Some y -> (y < best)%Q) ->
  let idx := argmax_from best best_i (length pre) v in
  let top := max_from best v in
  (pre ++ v) !! idx = Some top /\
  (forall j y, (pre ++ v) !! j = Some y -> (y <= top)%Q) /\
  (forall j y, (j < idx)%nat -> (pre ++ v) !! j = Some y -> (y < top)%Q).
Proof.
  revert pre best best_i. induction v as [|x v IH]; intros pre best best_i Hbest Hle Hlt.
  - cbn. by rewrite app_nil_r.
  - cbn [argmax_from max_from]. rewrite (cons_middle x pre v), app_assoc.
    assert (length (pre ++ [x]) = S (length pre)) as Hlen
      by (rewrite length_app; cbn; lia).
    destruct (Qltb best x) eqn:Hcmp.
    + apply Qltb_true in Hcmp. rewrite <- Hlen. apply IH.
      * by apply list_lookup_middle.
      * intros j y Hj. apply lookup_app_Some in Hj as [Hj|[_ Hj]].
        -- apply Qlt_le_weak. eapply Qle_lt_trans; [by eapply Hle | done].
        -- apply list_lookup_singleton_Some in Hj as [_ <-]. apply Qle_refl.
      * intros j y Hlt' Hj. rewrite lookup_app_l in Hj by lia.
        eapply Qle_lt_trans; [by eapply Hle | done].
    + apply Qltb_false in Hcmp. rewrite <- Hlen. apply IH.
      * apply lookup_app_l_Some, Hbest.
      * intros j y Hj. apply lookup_app_Some in Hj as [Hj|[_ Hj]].
        -- by eapply Hle.
        -- by apply list_lookup_singleton_Some in Hj as [_ <-].
      * intros j y Hlt' Hj. apply lookup_lt_Some in Hbest.
        rewrite lookup_app_l in Hj by lia. by eapply Hlt.
Qed.

(** On a vector that is not empty, [np.argmax] and [np.max] return, and the
    index is the first place of the largest entry. *)
Lemma argmax_first_maximum (v : list Q) :
  v <> [] ->
  exists idx top,
    np_argmax v = Ok idx /\ np_max v = Ok top /\
    v !! idx = Some top /\
    (forall j y, v !! j = Some y -> (y <= top)%Q) /\
    (forall j y, (j < idx)%nat -> v !! j = Some y -> (y < top)%Q).
Proof.
  destruct v as [|x v]; [done|]. intros _.
  exists (argmax_from x 0 1 v), (max_from x v).
  split; [done|]. split; [done|].
  apply (argmax_scan v [x] x 0); [done| |intros; lia].
  intros j y Hj. apply list_lookup_singleton_Some in Hj as [_ <-]. apply Qle_refl.
Qed.

(** C5: once the classifier has produced a probability vector that is not
    empty, [predict_disease] selects the index [np.argmax] gives and returns
    the entry at that index, as it stands, for the confidence.  That entry is
    the largest of the vector; among equal largest entries the index is the
    lowest; and the index is fixed by the vector alone: it is the only one
    whose entry is largest with no equal before it. *)
Theorem predict_disease_argmax (rt : runtime) (img_path : string)
    (classifier : list image -> list (list Q)) (img : image)
    (row : list Q) (other_rows : list (list Q)) :
  model rt = Some classifier ->
  imread rt img_path = Some img ->
  classifier [resize rt (cvtColor_BGR2RGB img) (224, 224)%nat] = row :: other_rows ->
  row <> [] ->
  exists (idx : nat) (confidence : Q),
    np_argmax row = Ok idx /\
    np_max row = Ok confidence /\
    fst (run (predict_disease rt img_path))
      = (label ← subscript (class_names rt) idx; mret (label, confidence)) /\
    row !! idx = Some confidence /\
    (forall j y, row !! j = Some y -> (y <= confidence)%Q) /\
    (forall j y, row !! j = Some y -> (y == confidence)%Q -> (idx <= j)%nat) /\
    (forall j y, row !! j = Some y ->
       (forall k z, row !! k = Some z -> (z <= y)%Q) ->
       (forall k z, (k < j)%nat -> row !! k = Some z -> (z < y)%Q) ->
       j = idx).
Proof.
  intros Hmodel Himread Hpredict Hrow.
  destruct (argmax_first_maximum row Hrow)
    as (idx & top & Hargmax & Hmax & Hidx & Hle & Hlt).
  exists idx, top. split_and!; try done.
  - unfold predict_disease.
    rewrite outcome_bind by (intros _; destruct (model rt); [|apply steady_ret];
      apply steady_bind; [apply preprocess_image_steady|intros [?|]; solve_steady]).
    cbn [run emit fst mbind result_bind]. rewrite Hmodel.
    rewrite outcome_bind by (intros [?|]; solve_steady).
    rewrite preprocess_image_outcome, Himread.
    cbn [fmap option_fmap option_map mbind result_bind].
    rewrite outcome_bind by (intros ?; solve_steady).
    cbn [run emit fst mbind result_bind]. rewrite Hpredict.
    rewrite outcome_bind by (intros ?; solve_steady).
    cbn [run lift fst subscript lookup list_lookup mbind result_bind].
    rewrite outcome_bind by (intros ?; solve_steady).
    cbn [run lift fst]. rewrite Hargmax. cbn [mbind result_bind].
    rewrite outcome_bind by (intros ?; solve_steady).
    cbn [run lift fst].
    destruct (subscript (class_names rt) idx) as [label|e]; cbn [mbind result_bind]; [|done].
    rewrite outcome_bind by (intros ?; solve_steady).
    cbn [run lift fst]. by rewrite Hmax.
  - intros j y Hj Heq. destruct (decide (j < idx)%nat) as [Hbefore|]; [|lia].
    specialize (Hlt j y Hbefore Hj). rewrite Heq in Hlt. by apply Qlt_irrefl in Hlt.
  - intros j y Hj Hjle Hjlt.
    destruct (lt_eq_lt_dec j idx) as [[Hbefore| ->]|Hafter]; [|done|].
    + specialize (Hlt j y Hbefore Hj). specialize (Hjle idx top Hidx).
      exfalso. eapply Qlt_irrefl, Qlt_le_trans; done.
    + specialize (Hjlt idx top Hafter Hidx). specialize (Hle j y Hj).
      exfalso. eapply Qlt_irrefl, Qlt_le_trans; done.
Qed.

Lemma predict_disease_argmax_witness :
  exists (idx : nat) (confidence : Q),
    np_argmax [2 # 10; 4 # 10; 4 # 10]%Q = Ok idx /\
    np_max [2 # 10; 4 # 10; 4 # 10]%Q = Ok confidence /\
    fst (run (predict_disease Scenario.rt_tie "static/uploads/leaf.jpg"))
      = (label ← subscript (class_names Scenario.rt_tie) idx; mret (label, confidence)) /\
    [2 # 10; 4 # 10; 4 # 10]%Q !! idx = Some confidence /\
    (forall j y, [2 # 10; 4 # 10; 4 # 10]%Q !! j = Some y -> (y <= confidence)%Q) /\
    (forall j y, [2 # 10; 4 # 10; 4 # 10]%Q !! j = Some y ->
       (y == confidence)%Q -> (idx <= j)%nat) /\
    (forall j y, [2 # 10; 4 # 10; 4 # 10]%Q !! j = Some y ->
       (forall k z, [2 # 10; 4 # 10; 4 # 10]%Q !! k = Some z -> (z <= y)%Q) ->
       (forall k z, (k < j)%nat -> [2 # 10; 4 # 10; 4 # 10]%Q !! k = Some z -> (z < y)%Q) ->
       j = idx).
Proof.
  apply (predict_disease_argmax Scenario.rt_tie "static/uploads/leaf.jpg"
           Scenario.classifier_tie [[(10, 20, 30)%Z]] [2 # 10; 4 # 10; 4 # 10]%Q []).
  - reflexivity.
  - reflexivity.
  - reflexivity.
  - discriminate.
Defined.

Example predict_disease_tie :
  run (predict_disease Scenario.rt_tie "static/uploads/leaf.jpg")
  = (Ok ("Tomato___Early_blight", 4 # 10),
     [CallPredictDisease "static/uploads/leaf.jpg";
      CallPreprocessImage "static/uploads/leaf.jpg";
      ModelPredict]).
Proof. reflexivity. Qed.

(** * Further properties of the code *)

(** ** The loader beyond its failures *)

Lemma supported_provider_cases (provider : string) :
  provider = "groq" \/ provider = "openai" \/
  (String.eqb provider "groq" = false /\ String.eqb provider "openai" = false).
Proof.
  destruct (String.eqb provider "groq") eqn:Hgroq.
  - left. by apply String.eqb_eq.
  - destruct (String.eqb provider "openai") eqn:Hopenai.
    + right. left. by apply String.eqb_eq.
    + by right; right.
Qed.

Lemma key_missing_false (api_key : option string) :
  key_missing api_key = false <-> exists k, api_key = Some k /\ k <> EmptyString.
Proof.
  destruct api_key as [k|]; cbn.
  - rewrite String.eqb_neq. split; [by exists k|]. by intros (? & [= <-] & ?).
  - split; [done|]. by intros (? & ? & ?).
Qed.

(** What [load_llm] does once the client class and the key are there. *)
Lemma load_llm_with_key (lr : loader_runtime) (provider : string)
    (new_client : pyval -> string -> result chat_model) (api_key : string) :
  provider = "groq" \/ provider = "openai" ->
  provider_class lr provider = Some new_client ->
  environ lr !! provider_key provider = Some api_key ->
  api_key <> EmptyString ->
  run (load_llm lr provider)
  = match model_name_of (config lr) provider with
    | Ok model_name =>
        (new_client model_name api_key,
         [Stdout ("LLM loading for provider: " +:+ provider);
          Stdout ("Using " +:+ provider_title provider +:+ " Model: "
                  +:+ PyRepr.str model_name);
          ClientConstruct (provider_class_name provider)])
    | Raise e => (Raise e, [Stdout ("LLM loading for provider: " +:+ provider)])
    end.
Proof.
  intros Hprovider Hclass Hkey Hne.
  assert (key_missing (Some api_key) = false) as Hpresent
    by (apply key_missing_false; by exists api_key).
  unfold load_llm, run, model_name_of, mbind, M_bind, result_bind, lift, emit, raise.
  destruct Hprovider as [-> | ->]; cbn in Hclass, Hkey; cbn; rewrite Hclass, Hkey, Hpresent;
    destruct (getitem_key (config lr) "llm") as [llm_section|e]; cbn; try done.
  - destruct (getitem_key llm_section "groq") as [section|e]; cbn; [|done].
    by destruct (getitem_key section "model_name").
  - destruct (getitem_key llm_section "openai") as [section|e]; cbn; [|done].
    by destruct (getitem_key section "model_name").
Qed.

(** X1: [load_llm] returns a handle exactly when the provider is one of the
    two, its client class was imported, its API key is set and not empty,
    the configuration has the model name of that provider, and the client
    class, called with that model name and that key, builds the handle
    rather than raising. *)
Theorem load_llm_handle_iff (lr : loader_runtime) (provider : string) (h : chat_model) :
  fst (run (load_llm lr provider)) = Ok h <->
  exists new_client api_key model_name,
    (provider = "groq" \/ provider = "openai") /\
    provider_class lr provider = Some new_client /\
    environ lr !! provider_key provider = Some api_key /\
    api_key <> EmptyString /\
    model_name_of (config lr) provider = Ok model_name /\
    new_client model_name api_key = Ok h.
Proof.
  split.
  - intros Hrun.
    destruct (supported_provider_cases provider) as [Hp|[Hp|[Hgroq Hopenai]]].
    + destruct (provider_class lr provider) as [new_client|] eqn:Hclass.
      * destruct (key_missing (environ lr !! provider_key provider)) eqn:Hmissing.
        -- subst provider. cbn in Hclass, Hmissing.
           unfold load_llm, run in Hrun. cbn in Hrun.
           by rewrite Hclass, Hmissing in Hrun.
        -- apply key_missing_false in Hmissing as (api_key & Hkey & Hne).
           rewrite (load_llm_with_key lr provider new_client api_key) in Hrun by auto.
           destruct (model_name_of (config lr) provider) as [model_name|e] eqn:Hname;
             [|done].
           exists new_client, api_key, model_name. auto 10.
      * subst provider. cbn in Hclass. unfold load_llm, run in Hrun. cbn in Hrun.
        by rewrite Hclass in Hrun.
    + destruct (provider_class lr provider) as [new_client|] eqn:Hclass.
      * destruct (key_missing (environ lr !! provider_key provider)) eqn:Hmissing.
        -- subst provider. cbn in Hclass, Hmissing.
           unfold load_llm, run in Hrun. cbn in Hrun.
           by rewrite Hclass, Hmissing in Hrun.
        -- apply key_missing_false in Hmissing as (api_key & Hkey & Hne).
           rewrite (load_llm_with_key lr provider new_client api_key) in Hrun by auto.
           destruct (model_name_of (config lr) provider) as [model_name|e] eqn:Hname;
             [|done].
           exists new_client, api_key, model_name. auto 10.
      * subst provider. cbn in Hclass. unfold load_llm, run in Hrun. cbn in Hrun.
        by rewrite Hclass in Hrun.
    + unfold load_llm, run in Hrun. cbn in Hrun. by rewrite Hgroq, Hopenai in Hrun.
  - intros (new_client & api_key & model_name & Hp & Hclass & Hkey & Hne & Hname & Hnew).
    rewrite (load_llm_with_key lr provider new_client api_key) by done.
    by rewrite Hname.
Qed.

Lemma load_llm_handle_iff_witness :
  fst (run (load_llm Scenario.loader_keys "groq"))
  = Ok {| cm_class := "ChatGroq"; cm_model := PStr "llama-3.3-70b-versatile";
          cm_api_key := "gsk-test" |}.
Proof.
  apply (proj2 (load_llm_handle_iff Scenario.loader_keys "groq" _)).
  exists (Scenario.new_client "ChatGroq"), "gsk-test", (PStr "llama-3.3-70b-versatile").
  split_and!; [by left|reflexivity|reflexivity|discriminate|reflexivity|reflexivity].
Defined.

(** A client class that refuses the model name: the error is the one of
    the class, after both lines were printed. *)
Example load_llm_refused_model_name :
  run (load_llm Scenario.loader_null_model "groq")
  = (Raise (ValueError "1 validation error for ChatGroq"),
     [Stdout "LLM loading for provider: groq";
      Stdout "Using Groq Model: None";
      ClientConstruct "ChatGroq"]).
Proof. reflexivity. Qed.

(** X2: an API key that is set but empty counts as missing: with its client
    class imported, the provider fails with the "missing" [ValueError] and
    nothing but the first [print] happens. *)
Theorem load_llm_empty_key (lr : loader_runtime) (provider : string)
    (new_client : pyval -> string -> result chat_model) :
  provider = "groq" \/ provider = "openai" ->
  provider_class lr provider = Some new_client ->
  environ lr !! provider_key provider = Some EmptyString ->
  run (load_llm lr provider)
  = (Raise (ValueError (provider_key provider +:+ " missing! Check your .env file.")),
     [Stdout ("LLM loading for provider: " +:+ provider)]).
Proof.
  intros [-> | ->] Hclass Hkey; cbn in Hclass, Hkey;
    unfold load_llm, run; cbn; by rewrite Hclass, Hkey.
Qed.

Lemma load_llm_empty_key_witness :
  run (load_llm Scenario.loader_empty_key "groq")
  = (Raise (ValueError "GROQ_API_KEY missing! Check your .env file."),
     [Stdout "LLM loading for provider: groq"]).
Proof.
  apply (load_llm_empty_key Scenario.loader_empty_key "groq"
           (Scenario.new_client "ChatGroq")).
  - by left.
  - reflexivity.
  - reflexivity.
Defined.

(** X3: with the client class and the key in place, a configuration without
    the model name of the provider makes [load_llm] raise the error of the
    failed lookup, a [KeyError] on "llm" when that section is absent; no
    client is built. *)
Theorem load_llm_missing_model_name (lr : loader_runtime) (provider : string)
    (new_client : pyval -> string -> result chat_model) (api_key : string) :
  provider = "groq" \/ provider = "openai" ->
  provider_class lr provider = Some new_client ->
  environ lr !! provider_key provider = Some api_key ->
  api_key <> EmptyString ->
  is_ok (model_name_of (config lr) provider) = false ->
  exists e,
    model_name_of (config lr) provider = Raise e /\
    run (load_llm lr provider)
    = (Raise e, [Stdout ("LLM loading for provider: " +:+ provider)]) /\
    (forall d, config lr = PDict d -> dict_lookup "llm" d = None -> e = KeyError "llm").
Proof.
  intros Hp Hclass Hkey Hne Hname.
  rewrite (load_llm_with_key lr provider new_client api_key) by done.
  destruct (model_name_of (config lr) provider) as [model_name|e] eqn:Hlookup; [done|].
  exists e. split_and!; [done|done|].
  intros d Hcfg Hllm. unfold model_name_of in Hlookup.
  rewrite Hcfg in Hlookup. cbn in Hlookup. rewrite Hllm in Hlookup. cbn in Hlookup.
  congruence.
Qed.

Lemma load_llm_missing_model_name_witness :
  exists e,
    model_name_of (config Scenario.loader_no_config) "groq" = Raise e /\
    run (load_llm Scenario.loader_no_config "groq")
    = (Raise e, [Stdout ("LLM loading for provider: " +:+ "groq")]) /\
    (forall d, config Scenario.loader_no_config = PDict d ->
               dict_lookup "llm" d = None -> e = KeyError "llm").
Proof.
  apply (load_llm_missing_model_name Scenario.loader_no_config "groq"
           (Scenario.new_client "ChatGroq") "gsk-test").
  - by left.
  - reflexivity.
  - reflexivity.
  - discriminate.
  - reflexivity.
Defined.

(** ** Start-up and the loader check *)

Lemma load_llm_steady (lr : loader_runtime) (provider : string) :
  steady (load_llm lr provider).
Proof. unfold load_llm. solve_steady. Qed.

Section StartupFacts.

Variable exn_text : exn -> string.
Variable CONFIG_PATH : string.

Lemma startup_llm_value (proc : loader_process) :
  fst (run (startup_llm exn_text CONFIG_PATH proc))
  = Ok (match read_yaml proc CONFIG_PATH with
        | Ok parsed =>
            match fst (run (load_llm (loader_of proc parsed) "groq")) with
            | Ok handle => Some handle
            | Raise _ => None
            end
        | Raise _ => None
        end).
Proof.
  unfold startup_llm, try_except, new_groq_loader, run, mbind, M_bind, lift, emit.
  cbn. destruct (read_yaml proc CONFIG_PATH) as [parsed|e]; cbn; [|done].
  fold (loader_of proc parsed).
  rewrite (load_llm_steady (loader_of proc parsed) "groq" _). unfold run.
  by destruct (load_llm (loader_of proc parsed) "groq" []) as [[handle|e] t].
Qed.

Lemma check_model_loader_value (proc : loader_process) :
  fst (run (check_model_loader exn_text CONFIG_PATH proc))
  = Ok (match read_yaml proc CONFIG_PATH with
        | Ok parsed => is_ok (fst (run (load_llm (loader_of proc parsed) "groq")))
        | Raise _ => false
        end).
Proof.
  unfold check_model_loader, try_except, new_groq_loader, run, mbind, M_bind, lift, emit.
  cbn. destruct (read_yaml proc CONFIG_PATH) as [parsed|e]; cbn; [|done].
  fold (loader_of proc parsed).
  rewrite (load_llm_steady (loader_of proc parsed) "groq" _). unfold run.
  by destruct (load_llm (loader_of proc parsed) "groq" []) as [[handle|e] t].
Qed.

(** X4: the check of [main.py] and the start-up of [app.py] never raise:
    the check returns an answer and the start-up binds [llm], to a handle or
    to [None], whatever the process offers and whatever its calls raise
    ([print] apart, which is taken to succeed).  The check answers [True]
    exactly when the start-up, in the same process, binds [llm] to a handle,
    and [False] exactly when it binds [None]. *)
Theorem check_model_loader_iff_startup (proc : loader_process) :
  (exists answer : bool,
     fst (run (check_model_loader exn_text CONFIG_PATH proc)) = Ok answer) /\
  (exists bound : option chat_model,
     fst (run (startup_llm exn_text CONFIG_PATH proc)) = Ok bound) /\
  (fst (run (check_model_loader exn_text CONFIG_PATH proc)) = Ok true <->
   exists handle, fst (run (startup_llm exn_text CONFIG_PATH proc)) = Ok (Some handle)) /\
  (fst (run (check_model_loader exn_text CONFIG_PATH proc)) = Ok false <->
   fst (run (startup_llm exn_text CONFIG_PATH proc)) = Ok None).
Proof.
  rewrite check_model_loader_value, startup_llm_value.
  split; [by eexists|]. split; [by eexists|].
  destruct (read_yaml proc CONFIG_PATH) as [parsed|e].
  - destruct (fst (run (load_llm (loader_of proc parsed) "groq"))) as [handle|e]; cbn.
    + split; split; try done. by exists handle.
    + split; split; try done. by intros [? ?].
  - split; split; try done. by intros [? ?].
Qed.

(** X5: there is no fall-back to the other provider: when [GROQ_API_KEY] is
    unset or empty the start-up leaves [llm] at [None], whatever the OpenAI
    class and key are, and [get_combined_advice] then answers with its
    fixed text. *)
Theorem startup_without_groq_key (proc : loader_process) (rt : runtime)
    (disease_name city : string) :
  key_missing (proc_environ proc !! "GROQ_API_KEY") = true ->
  fst (run (startup_llm exn_text CONFIG_PATH proc)) = Ok (llm rt) ->
  llm rt = None /\
  run (get_combined_advice rt disease_name city) = (Ok "AI advice unavailable.", []).
Proof.
  intros Hmissing Hstart. rewrite startup_llm_value in Hstart.
  assert (llm rt = None) as Hllm.
  { destruct (read_yaml proc CONFIG_PATH) as [parsed|e]; [|congruence].
    assert (fst (run (load_llm (loader_of proc parsed) "groq")) = Raise
              (match proc_ChatGroq proc with
               | None => ImportError
                   "langchain_groq is not installed. Install it using: pip install langchain-groq"
               | Some _ => ValueError "GROQ_API_KEY missing! Check your .env file."
               end)) as Hload.
    { unfold load_llm, run. cbn.
      destruct (proc_ChatGroq proc); [|done]. by rewrite Hmissing. }
    rewrite Hload in Hstart. congruence. }
  split; [done|]. by apply get_combined_advice_unavailable.
Qed.

End StartupFacts.

Lemma startup_without_groq_key_witness :
  llm Scenario.rt_no_llm = None /\
  run (get_combined_advice Scenario.rt_no_llm "Tomato___Early_blight" "Mumbai")
  = (Ok "AI advice unavailable.", []).
Proof.
  apply (startup_without_groq_key (fun _ => "error") "config/config.yaml"
           ProcessScenario.openai_only Scenario.rt_no_llm).
  - reflexivity.
  - reflexivity.
Defined.

(** ** The class names read at start-up *)

Lemma names_by_index_complete (d : pydict) (n i : nat) :
  (forall k, (k < n)%nat -> is_Some (dict_lookup (pretty (i + k)%nat) d)) ->
  exists names,
    names_by_index d i n = Ok names /\
    length names = n /\
    (forall k, (k < n)%nat -> names !! k = dict_lookup (pretty (i + k)%nat) d).
Proof.
  revert i. induction n as [|n IH]; intros i Hall.
  - exists []. split_and!; [done|done|intros; lia].
  - destruct (Hall 0%nat ltac:(lia)) as [name Hname].
    rewrite Nat.add_0_r in Hname.
    destruct (IH (S i)) as (rest & Hrest & Hlen & Hnth).
    { intros k Hk. replace (S i + k)%nat with (i + S k)%nat by lia. apply Hall. lia. }
    exists (name :: rest). split_and!.
    + cbn [names_by_index getitem_key]. rewrite Hname. cbn. by rewrite Hrest.
    + cbn. by rewrite Hlen.
    + intros [|k] Hk.
      * by rewrite Nat.add_0_r.
      * cbn. rewrite Hnth by lia. f_equal. f_equal. lia.
Qed.

Lemma names_by_index_missing (d : pydict) (n i k : nat) :
  (k < n)%nat ->
  dict_lookup (pretty (i + k)%nat) d = None ->
  (forall j, (j < k)%nat -> is_Some (dict_lookup (pretty (i + j)%nat) d)) ->
  names_by_index d i n = Raise (KeyError (pretty (i + k)%nat)).
Proof.
  revert i k. induction n as [|n IH]; intros i k Hk Hnone Hbefore; [lia|].
  cbn [names_by_index getitem_key]. destruct k as [|k].
  - rewrite Nat.add_0_r in Hnone. rewrite Hnone. cbn. by rewrite Nat.add_0_r.
  - destruct (Hbefore 0%nat ltac:(lia)) as [name Hname].
    rewrite Nat.add_0_r in Hname. rewrite Hname. cbn.
    rewrite (IH (S i) k); [|lia| |].
    + cbn. do 3 f_equal. lia.
    + by replace (S i + k)%nat with (i + S k)%nat by lia.
    + intros j Hj. replace (S i + j)%nat with (i + S j)%nat by lia. apply Hbefore. lia.
Qed.

(** X6: a class-name document that is a dictionary keyed "0", "1", ... up to
    its number of keys becomes the list of its values in index order, of the
    same length; a list is kept as it is. *)
Theorem normalize_class_names_indexed (d : pydict) :
  (forall k, (k < dict_len d)%nat -> is_Some (dict_lookup (pretty k) d)) ->
  exists names,
    normalize_class_names (PDict d) = Ok (PList names) /\
    length names = dict_len d /\
    (forall k, (k < dict_len d)%nat -> names !! k = dict_lookup (pretty k) d) /\
    (forall l, normalize_class_names (PList l) = Ok (PList l)).
Proof.
  intros Hall.
  destruct (names_by_index_complete d (dict_len d) 0 Hall) as (names & Hnames & Hlen & Hnth).
  exists names. cbn [normalize_class_names]. rewrite Hnames. by split_and!.
Qed.

Lemma normalize_class_names_indexed_witness :
  exists names,
    normalize_class_names
      (PDict [("1", PStr "Tomato___Early_blight"); ("0", PStr "Tomato___healthy")])
    = Ok (PList names) /\
    length names = 2%nat /\
    (forall k, (k < 2)%nat -> names !! k
       = dict_lookup (pretty k)
           [("1", PStr "Tomato___Early_blight"); ("0", PStr "Tomato___healthy")]) /\
    (forall l, normalize_class_names (PList l) = Ok (PList l)).
Proof.
  apply (normalize_class_names_indexed
           [("1", PStr "Tomato___Early_blight"); ("0", PStr "Tomato___healthy")]).
  intros [|[|k]] Hk; [by eexists|by eexists|].
  vm_compute in Hk. lia.
Defined.

(** X7: when an index below the number of keys is not a key of the
    dictionary, the conversion raises [KeyError] on the first such index;
    this happens inside the [try] block of the start-up. *)
Theorem normalize_class_names_gap (d : pydict) (k : nat) :
  (k < dict_len d)%nat ->
  dict_lookup (pretty k) d = None ->
  (forall j, (j < k)%nat -> is_Some (dict_lookup (pretty j) d)) ->
  normalize_class_names (PDict d) = Raise (KeyError (pretty k)).
Proof.
  intros Hk Hnone Hbefore. cbn [normalize_class_names].
  by rewrite (names_by_index_missing d (dict_len d) 0 k).
Qed.

Lemma normalize_class_names_gap_witness :
  normalize_class_names
    (PDict [("0", PStr "Tomato___healthy"); ("2", PStr "Tomato___Late_blight")])
  = Raise (KeyError "1").
Proof.
  apply (normalize_class_names_gap
           [("0", PStr "Tomato___healthy"); ("2", PStr "Tomato___Late_blight")] 1).
  - vm_compute. lia.
  - reflexivity.
  - intros [|j] Hj; [by eexists|lia].
Defined.

(** ** The classifier beyond its sentinels *)

(** The three ways through [predict_disease], with their traces. *)
Lemma predict_disease_run (rt : runtime) (img_path : string) :
  run (predict_disease rt img_path)
  = match model rt with
    | None => (Ok ("Model not loaded", 0%Q), [CallPredictDisease img_path])
    | Some classifier =>
        match imread rt img_path with
        | None =>
            (Ok ("Processing failed", 0%Q),
             [CallPredictDisease img_path; CallPreprocessImage img_path])
        | Some img =>
            (first_row ←
               subscript (classifier [resize rt (cvtColor_BGR2RGB img) (224, 224)%nat]) 0;
             idx ← np_argmax first_row;
             label ← subscript (class_names rt) idx;
             confidence ← np_max first_row;
             mret (label, confidence),
             [CallPredictDisease img_path; CallPreprocessImage img_path; ModelPredict])
        end
    end.
Proof.
  unfold predict_disease, preprocess_image, run, mbind, M_bind, result_bind, lift, emit.
  cbn. destruct (model rt) as [classifier|]; [|done].
  destruct (imread rt img_path) as [img|]; cbn; [|done].
  destruct (subscript _ 0) as [first_row|e]; cbn; [|done].
  destruct (np_argmax first_row) as [idx|e]; cbn; [|done].
  destruct (subscript (class_names rt) idx) as [label|e]; cbn; [|done].
  by destruct (np_max first_row).
Qed.

(** X8: whatever [predict_disease] returns is one of three things: the
    "Model not loaded" pair when no classifier is loaded, the
    "Processing failed" pair when the image does not decode, or a label taken
    from the list of class names together with an entry of the first row of
    the prediction that no entry of this row exceeds. *)
Theorem predict_disease_returns (rt : runtime) (img_path label : string) (confidence : Q) :
  fst (run (predict_disease rt img_path)) = Ok (label, confidence) ->
  (model rt = None /\ label = "Model not loaded" /\ confidence = 0%Q) \/
  (model rt <> None /\ imread rt img_path = None /\
   label = "Processing failed" /\ confidence = 0%Q) \/
  (exists classifier img row other_rows idx,
     model rt = Some classifier /\ imread rt img_path = Some img /\
     classifier [resize rt (cvtColor_BGR2RGB img) (224, 224)%nat] = row :: other_rows /\
     class_names rt !! idx = Some label /\
     row !! idx = Some confidence /\
     (forall j y, row !! j = Some y -> (y <= confidence)%Q)).
Proof.
  rewrite predict_disease_run.
  destruct (model rt) as [classifier|] eqn:Hmodel.
  - destruct (imread rt img_path) as [img|] eqn:Himread.
    + cbn [fst]. intros Hrun. right. right.
      destruct (classifier [resize rt (cvtColor_BGR2RGB img) (224, 224)%nat])
        as [|row other_rows] eqn:Hpredict; [done|].
      cbn in Hrun.
      destruct row as [|x row]; [done|].
      destruct (argmax_first_maximum (x :: row) ltac:(done))
        as (idx & top & Hargmax & Hmax & Hidx & Hle & _).
      rewrite Hargmax in Hrun. cbn [mbind result_bind] in Hrun.
      unfold subscript in Hrun.
      destruct (class_names rt !! idx) as [name|] eqn:Hname; [|done].
      cbn [mbind result_bind] in Hrun. rewrite Hmax in Hrun.
      injection Hrun as <- <-.
      by exists classifier, img, (x :: row), other_rows, idx.
    + intros [= <- <-]. right. left. by split_and!.
  - intros [= <- <-]. left. by split_and!.
Qed.

Lemma predict_disease_returns_witness :
  (model Scenario.rt_tie = None /\
   "Tomato___Early_blight" = "Model not loaded" /\ (4 # 10 = 0)%type) \/
  (model Scenario.rt_tie <> None /\ imread Scenario.rt_tie "static/uploads/leaf.jpg" = None /\
   "Tomato___Early_blight" = "Processing failed" /\ (4 # 10 = 0)%type) \/
  (exists classifier img row other_rows idx,
     model Scenario.rt_tie = Some classifier /\
     imread Scenario.rt_tie "static/uploads/leaf.jpg" = Some img /\
     classifier [resize Scenario.rt_tie (cvtColor_BGR2RGB img) (224, 224)%nat]
       = row :: other_rows /\
     class_names Scenario.rt_tie !! idx = Some "Tomato___Early_blight" /\
     row !! idx = Some (4 # 10) /\
     (forall j y, row !! j = Some y -> (y <= 4 # 10)%Q)).
Proof.
  apply (predict_disease_returns Scenario.rt_tie "static/uploads/leaf.jpg").
  reflexivity.
Defined.

(** X9: the list of class names is not checked against the prediction: when
    the selected index is past the end of the list, [predict_disease] raises
    [IndexError], after the classifier has run, instead of returning a
    sentinel. *)
Theorem predict_disease_label_out_of_range (rt : runtime) (img_path : string)
    (classifier : list image -> list (list Q)) (img : image)
    (row : list Q) (other_rows : list (list Q)) (idx : nat) :
  model rt = Some classifier ->
  imread rt img_path = Some img ->
  classifier [resize rt (cvtColor_BGR2RGB img) (224, 224)%nat] = row :: other_rows ->
  np_argmax row = Ok idx ->
  (length (class_names rt) <= idx)%nat ->
  run (predict_disease rt img_path)
  = (Raise IndexError,
     [CallPredictDisease img_path; CallPreprocessImage img_path; ModelPredict]).
Proof.
  intros Hmodel Himread Hpredict Hargmax Hshort.
  rewrite predict_disease_run, Hmodel, Himread, Hpredict. cbn.
  rewrite Hargmax. cbn [mbind result_bind]. unfold subscript.
  by rewrite (lookup_ge_None_2 _ _ Hshort).
Qed.

Lemma predict_disease_label_out_of_range_witness :
  run (predict_disease Scenario.rt_short_names "static/uploads/leaf.jpg")
  = (Raise IndexError,
     [CallPredictDisease "static/uploads/leaf.jpg";
      CallPreprocessImage "static/uploads/leaf.jpg"; ModelPredict]).
Proof.
  apply (predict_disease_label_out_of_range Scenario.rt_short_names
           "static/uploads/leaf.jpg" Scenario.classifier [[(10, 20, 30)%Z]]
           [5368709 # 67108864; 15435039 # 16777216]%Q [] 1).
  - reflexivity.
  - reflexivity.
  - reflexivity.
  - reflexivity.
  - vm_compute. lia.
Defined.

(** ** [get_combined_advice] with a language model *)



(** X11: the default of the "weather" lookup does not cover an empty list:
    when the payload has "weather": [], [get_combined_advice] raises
    [IndexError] after the two weather calls, and the model is not called. *)
Theorem get_combined_advice_empty_weather (rt : runtime) (handle : chat_model)
    (disease_name city : string) :
  llm rt = Some handle ->
  dict_lookup "weather" (get_current_weather rt city) = Some (PList []) ->
  run (get_combined_advice rt disease_name city)
  = (Raise IndexError, [WeatherCurrent city; WeatherForecast city]).
Proof.
  intros Hllm Hweather.
  unfold get_combined_advice, run, mbind, M_bind, lift, emit, dict_get.
  rewrite Hllm, Hweather. reflexivity.
Qed.

Lemma get_combined_advice_empty_weather_witness :
  run (get_combined_advice Scenario.rt_empty_weather "Tomato___Early_blight" "Mumbai")
  = (Raise IndexError, [WeatherCurrent "Mumbai"; WeatherForecast "Mumbai"]).
Proof.
  apply (get_combined_advice_empty_weather Scenario.rt_empty_weather Scenario.handle).
  - reflexivity.
  - reflexivity.
Defined.

(** X12: the forecast is fetched and then left aside: two processes that
    differ only in what the forecast call answers give the same advice and
    the same trace. *)
Theorem get_combined_advice_ignores_forecast (rt1 rt2 : runtime)
    (disease_name city : string) :
  llm rt1 = llm rt2 ->
  llm_reply rt1 = llm_reply rt2 ->
  get_current_weather rt1 city = get_current_weather rt2 city ->
  run (get_combined_advice rt1 disease_name city)
  = run (get_combined_advice rt2 disease_name city).
Proof.
  intros Hllm Hreply Hweather.
  unfold get_combined_advice, chain_invoke.
  by rewrite Hllm, Hreply, Hweather.
Qed.

Lemma get_combined_advice_ignores_forecast_witness :
  run (get_combined_advice Scenario.rt "Tomato___Early_blight" "Mumbai")
  = run (get_combined_advice Scenario.rt_forecast "Tomato___Early_blight" "Mumbai").
Proof.
  apply (get_combined_advice_ignores_forecast Scenario.rt Scenario.rt_forecast).
  - reflexivity.
  - reflexivity.
  - reflexivity.
Defined.

(** ** The [/analyze] handler on an accepted upload *)

(** The whole run of the handler on an accepted upload: outcome and trace. *)
Lemma analyze_accepted_run (rt : runtime) (req : request) (file : file_storage)
    (city : string) :
  is_Some (session req !! "logged_in") ->
  method req = POST ->
  files req !! "file" = Some file ->
  allowed_file (fs_filename file) = Ok true ->
  form req !! "city" = Some city ->
  truthy city = true ->
  let filename := secure_filename rt (fs_filename file) in
  let filepath := path_join UPLOAD_FOLDER filename in
  run (analyze rt req)
  = match run (predict_disease rt filepath) with
    | (Raise e, t) => (Raise e, FileSave filepath :: t)
    | (Ok (disease, confidence), t) =>
        let before := FileSave filepath :: t ++ [WeatherCurrent city] in
        match weather_summary_of (get_current_weather rt city) with
        | Raise e => (Raise e, before)
        | Ok weather_summary =>
            match build_chain (llm rt) with
            | Raise e => (Raise e, before)
            | Ok chain =>
                let prompt := PLANT_CARE_PROMPT (humanize_prompt disease) weather_summary in
                (Ok (Render "analyze.html"
                       [("filename", filename);
                        ("disease", humanize_display disease);
                        ("confidence", confidence_text (output_kind rt) confidence);
                        ("weather", weather_summary);
                        ("city", city);
                        ("remedy", markdown rt (llm_reply rt chain prompt))]),
                 before ++ [LlmInvoke prompt])
            end
        end
    end.
Proof.
  intros [v Hsession] Hmethod Hfile Hallowed Hcity Htruthy filename filepath.
  unfold analyze, login_required, analyze_view.
  rewrite Hsession, Hmethod, Hfile, (allowed_file_truthy _ Hallowed), Hallowed, Hcity.
  fold filename. fold filepath.
  unfold run at 1. unfold mbind, M_bind, lift, emit, chain_invoke. cbn.
  rewrite Htruthy. cbn.
  rewrite (predict_disease_steady rt filepath [FileSave filepath]).
  destruct (run (predict_disease rt filepath)) as [[[disease confidence]|e] t]; cbn; [|done].
  destruct (weather_summary_of (get_current_weather rt city)) as [summary|e]; cbn; [|done].
  destruct (build_chain (llm rt)) as [chain|e]; cbn; [|done].
  reflexivity.
Qed.

(** X13: the guard of the weather line looks at "main" only: a payload
    with "main" and without "weather" makes the handler raise [KeyError] on
    "weather" once the file is saved and classified, and the model is not
    called. *)
Theorem analyze_weather_key_error (rt : runtime) (req : request) (file : file_storage)
    (city disease : string) (confidence : Q) (t : list event) :
  is_Some (session req !! "logged_in") ->
  method req = POST ->
  files req !! "file" = Some file ->
  allowed_file (fs_filename file) = Ok true ->
  form req !! "city" = Some city ->
  truthy city = true ->
  run (predict_disease rt
         (path_join UPLOAD_FOLDER (secure_filename rt (fs_filename file))))
    = (Ok (disease, confidence), t) ->
  is_Some (dict_lookup "main" (get_current_weather rt city)) ->
  dict_lookup "weather" (get_current_weather rt city) = None ->
  weather_summary_of (get_current_weather rt city) = Raise (KeyError "weather") /\
  run (analyze rt req)
  = (Raise (KeyError "weather"),
     FileSave (path_join UPLOAD_FOLDER (secure_filename rt (fs_filename file)))
       :: t ++ [WeatherCurrent city]).
Proof.
  intros Hsession Hmethod Hfile Hallowed Hcity Htruthy Hpredict [main Hmain] Hweather.
  assert (weather_summary_of (get_current_weather rt city) = Raise (KeyError "weather"))
    as Hsummary.
  { unfold weather_summary_of, dict_contains. rewrite Hmain. cbn. by rewrite Hweather. }
  split; [done|].
  rewrite (analyze_accepted_run rt req file city) by done.
  cbv zeta. by rewrite Hpredict, Hsummary.
Qed.

Lemma analyze_weather_key_error_witness :
  weather_summary_of (get_current_weather Scenario.rt_main_only "Mumbai")
    = Raise (KeyError "weather") /\
  run (analyze Scenario.rt_main_only (Scenario.upload "leaf.jpg" "Mumbai" true))
  = (Raise (KeyError "weather"),
     [FileSave "static/uploads/leaf.jpg";
      CallPredictDisease "static/uploads/leaf.jpg";
      CallPreprocessImage "static/uploads/leaf.jpg";
      ModelPredict;
      WeatherCurrent "Mumbai"]).
Proof.
  apply (analyze_weather_key_error Scenario.rt_main_only
           (Scenario.upload "leaf.jpg" "Mumbai" true) {| fs_filename := "leaf.jpg" |}
           "Mumbai" "Tomato___Early_blight" (15435039 # 16777216)
           [CallPredictDisease "static/uploads/leaf.jpg";
            CallPreprocessImage "static/uploads/leaf.jpg"; ModelPredict]).
  - by eexists.
  - reflexivity.
  - reflexivity.
  - reflexivity.
  - reflexivity.
  - reflexivity.
  - reflexivity.
  - by eexists.
  - reflexivity.
Defined.

(** X14: a failed classification does not stop the request.  With no
    classifier loaded, an accepted upload is still saved, the weather is
    still fetched, the language model is asked about the disease
    "Model not loaded", and the page shows that name with the confidence
    "0.0%". *)
Theorem analyze_without_classifier (rt : runtime) (req : request) (file : file_storage)
    (city weather_summary : string) (chain : chat_model) :
  is_Some (session req !! "logged_in") ->
  method req = POST ->
  files req !! "file" = Some file ->
  allowed_file (fs_filename file) = Ok true ->
  form req !! "city" = Some city ->
  truthy city = true ->
  model rt = None ->
  weather_summary_of (get_current_weather rt city) = Ok weather_summary ->
  llm rt = Some chain ->
  let filename := secure_filename rt (fs_filename file) in
  let prompt := PLANT_CARE_PROMPT "Model not loaded" weather_summary in
  run (analyze rt req)
  = (Ok (Render "analyze.html"
           [("filename", filename);
            ("disease", "Model not loaded");
            ("confidence", "0.0%");
            ("weather", weather_summary);
            ("city", city);
            ("remedy", markdown rt (llm_reply rt chain prompt))]),
     [FileSave (path_join UPLOAD_FOLDER filename);
      CallPredictDisease (path_join UPLOAD_FOLDER filename);
      WeatherCurrent city;
      LlmInvoke prompt]).
Proof.
  intros Hsession Hmethod Hfile Hallowed Hcity Htruthy Hmodel Hweather Hllm.
  cbv zeta. rewrite (analyze_accepted_run rt req file city) by done.
  cbv zeta. rewrite predict_disease_run, Hmodel, Hweather, Hllm.
  cbn -[confidence_text]. by rewrite confidence_text_zero.
Qed.

Lemma analyze_without_classifier_witness :
  run (analyze Scenario.rt_no_model (Scenario.upload "leaf.jpg" "Mumbai" true))
  = (Ok (Render "analyze.html"
           [("filename", "leaf.jpg");
            ("disease", "Model not loaded");
            ("confidence", "0.0%");
            ("weather", "Clear sky, 30°C");
            ("city", "Mumbai");
            ("remedy", "<h2>Early blight</h2>")]),
     [FileSave "static/uploads/leaf.jpg";
      CallPredictDisease "static/uploads/leaf.jpg";
      WeatherCurrent "Mumbai";
      LlmInvoke (PLANT_CARE_PROMPT "Model not loaded" "Clear sky, 30°C")]).
Proof.
  apply (analyze_without_classifier Scenario.rt_no_model
           (Scenario.upload "leaf.jpg" "Mumbai" true) {| fs_filename := "leaf.jpg" |}
           "Mumbai" "Clear sky, 30°C" Scenario.handle).
  - by eexists.
  - reflexivity.
  - reflexivity.
  - reflexivity.
  - reflexivity.
  - reflexivity.
  - reflexivity.
  - reflexivity.
  - reflexivity.
Defined.

(** X15: on an accepted upload that is classified, with a usable weather
    payload and a language model, the handler saves the file first, under
    the upload folder when the sanitised name is relative, classifies it,
    asks for the weather, and calls the model exactly once, last, on the
    prompt built from the humanised label and the weather line. *)
Theorem analyze_success_trace (rt : runtime) (req : request) (file : file_storage)
    (city disease weather_summary : string) (confidence : Q) (chain : chat_model)
    (t : list event) :
  is_Some (session req !! "logged_in") ->
  method req = POST ->
  files req !! "file" = Some file ->
  allowed_file (fs_filename file) = Ok true ->
  form req !! "city" = Some city ->
  truthy city = true ->
  let filename := secure_filename rt (fs_filename file) in
  let filepath := path_join UPLOAD_FOLDER filename in
  run (predict_disease rt filepath) = (Ok (disease, confidence), t) ->
  weather_summary_of (get_current_weather rt city) = Ok weather_summary ->
  llm rt = Some chain ->
  snd (run (analyze rt req))
  = FileSave filepath :: t ++
    [WeatherCurrent city;
     LlmInvoke (PLANT_CARE_PROMPT (humanize_prompt disease) weather_summary)] /\
  (String.prefix "/" filename = false -> filepath = "static/uploads/" +:+ filename).
Proof.
  intros Hsession Hmethod Hfile Hallowed Hcity Htruthy filename filepath
    Hpredict Hweather Hllm.
  split.
  - rewrite (analyze_accepted_run rt req file city) by done.
    cbv zeta. fold filename. fold filepath. rewrite Hpredict, Hweather, Hllm.
    cbn. by rewrite <- app_assoc.
  - intros Hrelative. unfold filepath, path_join. by rewrite Hrelative.
Qed.

Lemma analyze_success_trace_witness :
  snd (run (analyze Scenario.rt (Scenario.upload "leaf.jpg" "Mumbai" true)))
  = FileSave "static/uploads/leaf.jpg"
    :: [CallPredictDisease "static/uploads/leaf.jpg";
        CallPreprocessImage "static/uploads/leaf.jpg"; ModelPredict] ++
    [WeatherCurrent "Mumbai";
     LlmInvoke (PLANT_CARE_PROMPT "Tomato Early blight" "Clear sky, 30°C")] /\
  (String.prefix "/" "leaf.jpg" = false ->
   "static/uploads/leaf.jpg" = "static/uploads/" +:+ "leaf.jpg").
Proof.
  apply (analyze_success_trace Scenario.rt (Scenario.upload "leaf.jpg" "Mumbai" true)
           {| fs_filename := "leaf.jpg" |} "Mumbai" "Tomato___Early_blight"
           "Clear sky, 30°C" (15435039 # 16777216) Scenario.handle).
  - by eexists.
  - reflexivity.
  - reflexivity.
  - reflexivity.
  - reflexivity.
  - reflexivity.
  - reflexivity.
  - reflexivity.
  - reflexivity.
Defined.

(** X16: the weather line reads four fields and nothing else: whatever else
    the payload holds and in whatever order, it is the capitalised
    description of the first "weather" entry, a comma, the text of
    "main"."temp", and "°C".  This for a description in ASCII, whose
    capitalised form changes the case of its letters alone, and for a
    temperature that is a number, a string, a Boolean or [None]; a
    temperature that is a float is shown by the shortest decimal that reads
    back as it, with an exponent when it is very small or very large. *)
Theorem weather_summary_format (weather_data main first_weather : pydict)
    (other_weather : list pyval) (description : string) (temp : pyval) :
  dict_lookup "main" weather_data = Some (PDict main) ->
  dict_lookup "temp" main = Some temp ->
  dict_lookup "weather" weather_data = Some (PList (PDict first_weather :: other_weather)) ->
  dict_lookup "description" first_weather = Some (PStr description) ->
  PyStr.is_ascii description = true ->
  PyRepr.scalar temp = true ->
  weather_summary_of weather_data
  = Ok (PyStr.capitalize description +:+ ", " +:+ PyRepr.str temp +:+ "°C").
Proof.
  intros Hmain Htemp Hweather Hdescription _ _.
  unfold weather_summary_of, dict_contains. rewrite Hmain. cbn.
  rewrite Hweather. cbn. rewrite Hdescription. cbn. rewrite Hmain. cbn.
  by rewrite Htemp.
Qed.

Lemma weather_summary_format_witness :
  weather_summary_of
    [("coord", PDict [("lon", PFloat (641059259458519 # 8796093022208));
                     ("lat", PFloat (5350839307269571 # 281474976710656))]);
     ("weather", PList [PDict [("id", PInt 721); ("main", PStr "Haze");
                               ("description", PStr "light HAZE")]]);
     ("main", PDict [("humidity", PInt 62);
                     ("temp", PFloat (8441434551552573 # 281474976710656))])]
  = Ok (PyStr.capitalize "light HAZE" +:+ ", "
        +:+ PyRepr.str (PFloat (8441434551552573 # 281474976710656)) +:+ "°C").
Proof.
  apply (weather_summary_format _
           [("humidity", PInt 62); ("temp", PFloat (8441434551552573 # 281474976710656))]
           [("id", PInt 721); ("main", PStr "Haze"); ("description", PStr "light HAZE")]
           []).
  - reflexivity.
  - reflexivity.
  - reflexivity.
  - reflexivity.
  - reflexivity.
  - by vm_compute.
Defined.

(** The double nearest to 29.99 and the double nearest to 0.00001, as the
    weather line shows them. *)
Example weather_summary_haze :
  PyStr.capitalize "light HAZE" +:+ ", "
    +:+ PyRepr.str (PFloat (8441434551552573 # 281474976710656)) +:+ "°C"
  = "Light haze, 29.99°C" /\
  PyRepr.str (PFloat (5902958103587057 # 590295810358705651712)) = "1e-05" /\
  PyRepr.scalar (PFloat (5902958103587057 # 590295810358705651712)) = true /\
  PyRepr.scalar (PFloat (2999 # 100)) = false /\
  PyStr.is_ascii "light HAZE" = true /\ PyStr.is_ascii "°C" = false.
Proof. by vm_compute. Qed.

(** ** Humanised labels *)

Lemma str_app_assoc (s1 s2 s3 : string) : (s1 +:+ s2) +:+ s3 = s1 +:+ (s2 +:+ s3).
Proof.
  induction s1 as [|c s1 IH]; [done|].
  change (String c ((s1 +:+ s2) +:+ s3) = String c (s1 +:+ (s2 +:+ s3))).
  by rewrite IH.
Qed.

Lemma str_app_nil_r (s : string) : s +:+ EmptyString = s.
Proof.
  induction s as [|c s IH]; [done|].
  change (String c (s +:+ EmptyString) = String c s). by rewrite IH.
Qed.

(** A pattern that starts with an underscore finds nothing in a text
    without underscores. *)
Lemma replace_without_underscore (old new s : string) :
  PyStr.contains "_" s = false ->
  PyStr.replace (String "_" old) new s = s.
Proof.
  unfold PyStr.replace. induction s as [|c s IH]; [done|].
  rewrite contains_char_cons. intros [Hc Hs]%orb_false_iff.
  cbn [PyStr.replace_go String.prefix].
  destruct (ascii_dec "_" c) as [<-|_]; [done|].
  by rewrite IH.
Qed.

(** Replacing single underscores works character by character. *)
Lemma replace_underscore_app (new s1 s2 : string) :
  PyStr.replace "_" new (s1 +:+ s2)
  = PyStr.replace "_" new s1 +:+ PyStr.replace "_" new s2.
Proof.
  unfold PyStr.replace. induction s1 as [|c s1 IH]; [done|].
  change (String c s1 +:+ s2) with (String c (s1 +:+ s2)).
  cbn [PyStr.replace_go]. rewrite !prefix_char.
  simpl String.length. simpl Nat.sub.
  destruct (Ascii.eqb "_" c).
  - by rewrite IH, str_app_assoc.
  - by rewrite IH.
Qed.

Lemma prefix_triple (b : string) : String.prefix "___" ("___" +:+ b) = true.
Proof. by destruct b. Qed.

(** The first triple underscore after a text without underscores. *)
Lemma replace_triple_after (new a b : string) :
  PyStr.contains "_" a = false ->
  PyStr.replace "___" new (a +:+ "___" +:+ b) = a +:+ new +:+ PyStr.replace "___" new b.
Proof.
  unfold PyStr.replace. induction a as [|c a IH].
  - intros _. change (EmptyString +:+ "___" +:+ b) with ("___" +:+ b).
    change ("___" +:+ b) with (String "_" (String "_" (String "_" b))) at 1.
    cbn [PyStr.replace_go].
    change (String "_" (String "_" (String "_" b))) with ("___" +:+ b).
    by rewrite prefix_triple.
  - rewrite contains_char_cons. intros [Hc Ha]%orb_false_iff.
    change (String c a +:+ ?x) with (String c (a +:+ x)).
    cbn [PyStr.replace_go String.prefix].
    destruct (ascii_dec "_" c) as [<-|_]; [done|].
    by rewrite IH.
Qed.

(** X17: a label without underscore is displayed and prompted as it is, and
    humanising twice changes nothing more. *)
Theorem humanize_fixed_points (disease : string) :
  (PyStr.contains "_" disease = false ->
   humanize_display disease = disease /\ humanize_prompt disease = disease) /\
  humanize_display (humanize_display disease) = humanize_display disease /\
  humanize_prompt (humanize_prompt disease) = humanize_prompt disease.
Proof.
  assert (forall s, PyStr.contains "_" s = false ->
            humanize_display s = s /\ humanize_prompt s = s) as Hfix.
  { intros s Hs. unfold humanize_display, humanize_prompt.
    by rewrite !(replace_without_underscore _ _ s Hs). }
  split; [apply Hfix|].
  split; apply Hfix, replace_underscore_go.
Qed.

Lemma humanize_fixed_points_witness :
  humanize_display "Model not loaded" = "Model not loaded" /\
  humanize_prompt "Model not loaded" = "Model not loaded".
Proof.
  apply (proj1 (humanize_fixed_points "Model not loaded")). reflexivity.
Defined.

(** X18: the two humanisations differ on the triple underscore only.  For
    a plant name without underscore followed by a triple underscore, the
    displayed name joins the plant and the humanised rest with " - ", the
    prompt joins them with one space. *)
Theorem humanize_plant_disease (plant rest : string) :
  PyStr.contains "_" plant = false ->
  humanize_display (plant +:+ "___" +:+ rest) = plant +:+ " - " +:+ humanize_display rest /\
  humanize_prompt (plant +:+ "___" +:+ rest) = plant +:+ " " +:+ humanize_prompt rest.
Proof.
  intros Hplant. unfold humanize_display, humanize_prompt.
  rewrite !replace_triple_after by done.
  rewrite !replace_underscore_app.
  rewrite (replace_without_underscore EmptyString " " plant Hplant).
  done.
Qed.

Lemma humanize_plant_disease_witness :
  humanize_display ("Corn" +:+ "___" +:+ "Common_rust_")
    = "Corn" +:+ " - " +:+ humanize_display "Common_rust_" /\
  humanize_prompt ("Corn" +:+ "___" +:+ "Common_rust_")
    = "Corn" +:+ " " +:+ humanize_prompt "Common_rust_".
Proof. apply (humanize_plant_disease "Corn" "Common_rust_"). reflexivity. Defined.

(** ** File names with several dots *)

Lemma allowed_file_last_extension (stem ext : string) :
  PyStr.contains "." ext = false ->
  allowed_file (stem +:+ "." +:+ ext)
  = Ok (bool_decide (PyStr.lower ext ∈ ALLOWED_EXTENSIONS)).
Proof.
  intros Hext. unfold allowed_file.
  assert (PyStr.rpartition "." (stem +:+ "." +:+ ext) = Some (stem, ext)) as Hp
    by (apply rpartition_some; done).
  change ("." +:+ ext) with (String "."%char ext) in *.
  rewrite contains_char_app, contains_char_cons, Ascii.eqb_refl, orb_true_r.
  unfold PyStr.rsplit1. by rewrite Hp.
Qed.

(** X19: only what follows the last dot counts: two names with the same
    last extension are accepted or rejected alike, whatever comes before,
    other extensions included. *)
Theorem allowed_file_ignores_stem (stem1 stem2 ext : string) :
  PyStr.contains "." ext = false ->
  allowed_file (stem1 +:+ "." +:+ ext) = allowed_file (stem2 +:+ "." +:+ ext).
Proof. intros Hext. by rewrite !allowed_file_last_extension. Qed.

Lemma allowed_file_ignores_stem_witness :
  allowed_file ("shell.php" +:+ "." +:+ "jpg") = allowed_file ("leaf" +:+ "." +:+ "jpg").
Proof. apply (allowed_file_ignores_stem "shell.php" "leaf" "jpg"). reflexivity. Defined.

(** ** Accounts and sessions *)

(** What [flash] leaves in a session: the message at the end of the list
    under "_flashes", and every other key as it was. *)
Lemma flash_lookup (message category : string) (s : gmap string pyval) :
  Auth.flash message category s !! "_flashes"
  = Some (PList (Auth.flashes s ++ [PList [PStr category; PStr message]])).
Proof. unfold Auth.flash. by rewrite lookup_insert_eq. Qed.

Lemma flash_lookup_ne (message category key : string) (s : gmap string pyval) :
  key <> "_flashes" -> Auth.flash message category s !! key = s !! key.
Proof. intros Hkey. unfold Auth.flash. by rewrite lookup_insert_ne. Qed.

(** X20: a sign-up form with a missing or empty field, or with two
    different passwords, is sent back to the sign-up page with one flashed
    message, and the database is not asked anything.  The session changes
    by that message alone: it is appended to the list under "_flashes", and
    every other key is left as it was. *)
Theorem signup_rejects_incomplete (db : Auth.services) (req : request) :
  method req = POST ->
  Auth.flashes_ok (session req) = true ->
  Auth.field_missing (form req !! "fullName") = true
    \/ Auth.field_missing (form req !! "email") = true
    \/ Auth.field_missing (form req !! "password") = true
    \/ Auth.field_missing (form req !! "confirmPassword") = true
    \/ form req !! "password" <> form req !! "confirmPassword" ->
  exists message,
    (message = "All fields are required!" \/ message = "Passwords do not match!") /\
    Auth.signup db req
    = {| Auth.resp := Redirect (url_for "signup");
         Auth.session_after := Auth.flash message "danger" (session req);
         Auth.effects := [Auth.Flashed message "danger"] |} /\
    Auth.session_after (Auth.signup db req) !! "_flashes"
    = Some (PList (Auth.flashes (session req)
                   ++ [PList [PStr "danger"; PStr message]])) /\
    (forall key, key <> "_flashes" ->
       Auth.session_after (Auth.signup db req) !! key = session req !! key).
Proof.
  intros Hmethod _ Hbad. unfold Auth.signup. rewrite Hmethod.
  destruct (Auth.field_missing (form req !! "fullName")
            || Auth.field_missing (form req !! "email")
            || Auth.field_missing (form req !! "password")
            || Auth.field_missing (form req !! "confirmPassword")) eqn:Hmissing.
  { exists "All fields are required!". cbn -[Auth.flash Auth.flashes].
    split_and!; [by left|done|apply flash_lookup|intros; by apply flash_lookup_ne]. }
  apply orb_false_iff in Hmissing as [[[Hname Hemail]%orb_false_iff Hpass]%orb_false_iff Hconf].
  destruct Hbad as [H|[H|[H|[H|Hdiff]]]]; try congruence.
  destruct (form req !! "password") as [password|]; [|done].
  destruct (form req !! "confirmPassword") as [confirm|]; [|done].
  cbn [default].
  destruct (String.eqb password confirm) eqn:Heq.
  - apply String.eqb_eq in Heq. congruence.
  - exists "Passwords do not match!". cbn -[Auth.flash Auth.flashes]. rewrite Heq.
    cbn -[Auth.flash Auth.flashes].
    split_and!; [by right|done|apply flash_lookup|intros; by apply flash_lookup_ne].
Qed.

Lemma signup_rejects_incomplete_witness :
  let req := AuthScenario.post (AuthScenario.signup_form "Bo" "bo@example.com" "one" "two") in
  exists message,
    (message = "All fields are required!" \/ message = "Passwords do not match!") /\
    Auth.signup AuthScenario.db req
    = {| Auth.resp := Redirect (url_for "signup");
         Auth.session_after := Auth.flash message "danger" (session req);
         Auth.effects := [Auth.Flashed message "danger"] |} /\
    Auth.session_after (Auth.signup AuthScenario.db req) !! "_flashes"
    = Some (PList (Auth.flashes (session req)
                   ++ [PList [PStr "danger"; PStr message]])) /\
    (forall key, key <> "_flashes" ->
       Auth.session_after (Auth.signup AuthScenario.db req) !! key = session req !! key).
Proof.
  apply (signup_rejects_incomplete AuthScenario.db
           (AuthScenario.post (AuthScenario.signup_form "Bo" "bo@example.com" "one" "two"))).
  - reflexivity.
  - reflexivity.
  - right. right. right. right. vm_compute. discriminate.
Defined.

Lemma field_missing_false (field : option string) :
  Auth.field_missing field = false <-> exists text, field = Some text /\ text <> EmptyString.
Proof.
  destruct field as [text|]; cbn.
  - unfold truthy. rewrite negb_involutive, String.eqb_neq.
    split; [by exists text|]. by intros (? & [= <-] & ?).
  - split; [done|]. by intros (? & ? & ?).
Qed.

(** What [signup] does with a complete form whose passwords agree. *)
Lemma signup_complete_form (db : Auth.services) (req : request)
    (name email password : string) :
  method req = POST ->
  form req !! "fullName" = Some name -> name <> EmptyString ->
  form req !! "email" = Some email -> email <> EmptyString ->
  form req !! "password" = Some password -> password <> EmptyString ->
  form req !! "confirmPassword" = Some password ->
  Auth.signup db req
  = let answer target done message category :=
      {| Auth.resp := Redirect (url_for target);
         Auth.session_after := Auth.flash message category (session req);
         Auth.effects := done ++ [Auth.Flashed message category] |} in
    let failed done text := answer "signup" done ("Error: " +:+ text) "danger" in
    match Auth.select_user db email with
    | Auth.Failed text => failed [Auth.UserQuery email] text
    | Auth.Done user =>
        match Auth.row_found user with
        | Some _ =>
            answer "signup" [Auth.UserQuery email] "Email already registered!" "danger"
        | None =>
            match Auth.generate_password_hash db password with
            | Auth.Failed text => failed [Auth.UserQuery email] text
            | Auth.Done hashed =>
                match Auth.insert_user db name email hashed with
                | Auth.Failed text =>
                    failed [Auth.UserQuery email; Auth.UserInsert name email hashed] text
                | Auth.Done _ =>
                    answer "signin"
                      [Auth.UserQuery email; Auth.UserInsert name email hashed]
                      "Account created successfully! Please sign in." "success"
                end
            end
        end
    end.
Proof.
  intros Hmethod Hname Hname' Hemail Hemail' Hpass Hpass' Hconf.
  unfold Auth.signup. rewrite Hmethod, Hname, Hemail, Hpass, Hconf.
  assert (forall text, text <> EmptyString -> Auth.field_missing (Some text) = false) as Hfield
    by (intros text Htext; apply field_missing_false; by exists text).
  rewrite !Hfield by done. cbn [orb default]. rewrite String.eqb_refl. reflexivity.
Qed.

(** X21: [signup] sends the browser to the sign-in page exactly when it
    created the account: the form is complete with two equal passwords, no
    row has the e-mail, the password was hashed and the insert went
    through.  Whenever an insert is sent it carries the name and e-mail of
    the form and the hash of its password, after a query that found no row. *)
Theorem signup_creates_account (db : Auth.services) (req : request) :
  (Auth.resp (Auth.signup db req) = Redirect (url_for "signin") <->
   method req = POST /\
   exists name email password hashed user,
     form req !! "fullName" = Some name /\ name <> EmptyString /\
     form req !! "email" = Some email /\ email <> EmptyString /\
     form req !! "password" = Some password /\ password <> EmptyString /\
     form req !! "confirmPassword" = Some password /\
     Auth.select_user db email = Auth.Done user /\ Auth.row_found user = None /\
     Auth.generate_password_hash db password = Auth.Done hashed /\
     Auth.insert_user db name email hashed = Auth.Done tt) /\
  (forall name email hashed,
     Auth.UserInsert name email hashed ∈ Auth.effects (Auth.signup db req) ->
     form req !! "fullName" = Some name /\ form req !! "email" = Some email /\
     (exists password, form req !! "password" = Some password /\
                       Auth.generate_password_hash db password = Auth.Done hashed) /\
     (exists user, Auth.select_user db email = Auth.Done user /\
                   Auth.row_found user = None)).
Proof.
  destruct (method req) eqn:Hmethod.
  { unfold Auth.signup. rewrite Hmethod. cbn. split.
    - split; [done|]. by intros [? _].
    - intros ? ? ? Hin. by apply elem_of_nil in Hin. }
  destruct (Auth.field_missing (form req !! "fullName")
            || Auth.field_missing (form req !! "email")
            || Auth.field_missing (form req !! "password")
            || Auth.field_missing (form req !! "confirmPassword")) eqn:Hmissing.
  { unfold Auth.signup. rewrite Hmethod, Hmissing. cbn. split.
    - split; [done|].
      intros (_ & name & email & password & hashed & user & Hn & Hn' & He & He' & Hp & Hp'
              & Hc & _).
      assert (forall text, text <> EmptyString -> Auth.field_missing (Some text) = false)
        as Hfield by (intros text Htext; apply field_missing_false; by exists text).
      rewrite Hn, He, Hp, Hc, !Hfield in Hmissing by done. done.
    - intros ? ? ? Hin. apply list_elem_of_singleton in Hin. done. }
  apply orb_false_iff in Hmissing as [[[Hname Hemail]%orb_false_iff Hpass]%orb_false_iff Hconf].
  apply field_missing_false in Hname as (name & Hname & Hname').
  apply field_missing_false in Hemail as (email & Hemail & Hemail').
  apply field_missing_false in Hpass as (password & Hpass & Hpass').
  apply field_missing_false in Hconf as (confirm & Hconf & Hconf').
  destruct (String.eqb password confirm) eqn:Heq.
  - apply String.eqb_eq in Heq as <-.
    rewrite (signup_complete_form db req name email password) by done. cbv zeta.
    destruct (Auth.select_user db email) as [user|text] eqn:Hselect.
    + destruct (Auth.row_found user) as [row|] eqn:Hrow.
      * cbn. split.
        -- split; [done|].
           intros (_ & ? & ? & ? & ? & ? & _ & _ & He & _ & _ & _ & _ & Hs & Hr & _).
           congruence.
        -- intros ? ? ? Hin. apply list_elem_of_In in Hin. cbn in Hin.
           by destruct Hin as [|[|]].
      * destruct (Auth.generate_password_hash db password) as [hashed|text] eqn:Hhash.
        -- destruct (Auth.insert_user db name email hashed) as [[]|text] eqn:Hinsert.
           ++ cbn. split.
              ** split; [intros _|done]. split; [done|].
                 exists name, email, password, hashed, user. by split_and!.
              ** intros ? ? ? Hin. apply list_elem_of_In in Hin. cbn in Hin.
                 destruct Hin as [|[[= <- <- <-]|[|[]]]]; try done.
                 split_and!; [done|done|by exists password|by exists user].
           ++ cbn. split.
              ** split; [done|].
                 intros (_ & ? & ? & ? & ? & ? & Hn & _ & He & _ & Hp & _ & _ & _ & _ & Hg & Hi).
                 congruence.
              ** intros ? ? ? Hin. apply list_elem_of_In in Hin. cbn in Hin.
                 destruct Hin as [|[[= <- <- <-]|[|[]]]]; try done.
                 split_and!; [done|done|by exists password|by exists user].
        -- cbn. split.
           ++ split; [done|].
              intros (_ & ? & ? & ? & ? & ? & _ & _ & _ & _ & Hp & _ & _ & _ & _ & Hg & _).
              congruence.
           ++ intros ? ? ? Hin. apply list_elem_of_In in Hin. cbn in Hin.
              by destruct Hin as [|[|]].
    + cbn. split.
      * split; [done|].
        intros (_ & ? & ? & ? & ? & ? & _ & _ & He & _ & _ & _ & _ & Hs & _). congruence.
      * intros ? ? ? Hin. apply list_elem_of_In in Hin. cbn in Hin.
        by destruct Hin as [|[|]].
  - unfold Auth.signup. rewrite Hmethod, Hname, Hemail, Hpass, Hconf.
    assert (forall text, text <> EmptyString -> Auth.field_missing (Some text) = false)
      as Hfield by (intros text Htext; apply field_missing_false; by exists text).
    rewrite !Hfield by done. cbn. rewrite Heq. cbn. split.
    + split; [done|].
      intros (_ & ? & ? & ? & ? & ? & _ & _ & _ & _ & [= <-] & _ & [= <-] & _).
      by rewrite String.eqb_refl in Heq.
    + intros ? ? ? Hin. apply list_elem_of_singleton in Hin. done.
Qed.

(** What [signin] does with an e-mail and a password that are not empty. *)
Lemma signin_complete_form (db : Auth.services) (req : request) (email password : string) :
  method req = POST ->
  form req !! "email" = Some email -> email <> EmptyString ->
  form req !! "password" = Some password -> password <> EmptyString ->
  Auth.signin db req
  = let answer target s message category :=
      {| Auth.resp := Redirect (url_for target);
         Auth.session_after := Auth.flash message category s;
         Auth.effects := [Auth.UserQuery email; Auth.Flashed message category] |} in
    let failed s text := answer "signin" s ("Error 3: " +:+ text) "danger" in
    let refused := answer "signin" (session req) "Invalid email or password!" "danger" in
    match Auth.select_user db email with
    | Auth.Failed text => failed (session req) text
    | Auth.Done user =>
        match Auth.row_found user with
        | None => refused
        | Some row =>
            match dict_lookup "password" row with
            | None => failed (session req) (PyRepr.str_repr "password")
            | Some stored =>
                match Auth.check_password_hash db stored password with
                | Auth.Failed text => failed (session req) text
                | Auth.Done false => refused
                | Auth.Done true =>
                    let s1 := <["logged_in" := PBool true]> (session req) in
                    match dict_lookup "id" row with
                    | None => failed s1 (PyRepr.str_repr "id")
                    | Some id =>
                        let s2 := <["user_id" := id]> s1 in
                        match dict_lookup "name" row with
                        | None => failed s2 (PyRepr.str_repr "name")
                        | Some name =>
                            answer "home"
                              (<["name" := name]> (<["username" := name]> s2))
                              ("Welcome " +:+ PyRepr.str name +:+ "!") "success"
                        end
                    end
                end
            end
        end
    end.
Proof.
  intros Hmethod Hemail Hemail' Hpass Hpass'.
  unfold Auth.signin. rewrite Hmethod, Hemail, Hpass.
  assert (forall text, text <> EmptyString -> Auth.field_missing (Some text) = false) as Hfield
    by (intros text Htext; apply field_missing_false; by exists text).
  rewrite !Hfield by done. reflexivity.
Qed.

(** X22: a sign-in with the e-mail of a row that has the columns "id" and
    "name", and a password that passes the hash check, puts the four keys in
    the session, appends the welcome message to the list under "_flashes"
    and leaves the other keys alone; the next request of that browser gets
    the index page from [home] and is let through the gate of [/analyze]. *)
Theorem signin_opens_session (db : Auth.services) (rt : runtime) (req : request)
    (email password : string) (row : pydict) (stored id name : pyval) :
  method req = POST ->
  Auth.flashes_ok (session req) = true ->
  form req !! "email" = Some email -> email <> EmptyString ->
  form req !! "password" = Some password -> password <> EmptyString ->
  Auth.select_user db email = Auth.Done (Some row) ->
  dict_lookup "password" row = Some stored ->
  Auth.check_password_hash db stored password = Auth.Done true ->
  dict_lookup "id" row = Some id ->
  dict_lookup "name" row = Some name ->
  PyRepr.scalar name = true ->
  let after := Auth.signin db req in
  let next := Auth.next_request after GET ∅ ∅ in
  Auth.resp after = Redirect "/" /\
  Auth.session_after after
    = Auth.flash ("Welcome " +:+ PyRepr.str name +:+ "!") "success"
        (<["name" := name]> (<["username" := name]> (<["user_id" := id]>
          (<["logged_in" := PBool true]> (session req))))) /\
  Auth.session_after after !! "_flashes"
    = Some (PList (Auth.flashes (session req)
                   ++ [PList [PStr "success";
                              PStr ("Welcome " +:+ PyRepr.str name +:+ "!")]])) /\
  Auth.resp (Auth.home next) = Render "index.html" [] /\
  run (analyze rt next) = (Ok (Render "analyze.html" []), []).
Proof.
  intros Hmethod _ Hemail Hemail' Hpass Hpass' Hselect Hstored Hcheck Hid Hname _.
  cbv zeta. rewrite (signin_complete_form db req email password) by done.
  cbv zeta. rewrite Hselect.
  assert (Auth.row_found (Some row) = Some row) as ->.
  { destruct row; [done|reflexivity]. }
  rewrite Hstored, Hcheck, Hid, Hname. cbn [Auth.resp Auth.session_after].
  split_and!; [done|done| | |].
  - rewrite flash_lookup. unfold Auth.flashes.
    by rewrite !lookup_insert_ne by done.
  - unfold Auth.home, Auth.next_request. cbn [session Auth.session_after].
    rewrite flash_lookup_ne by done.
    rewrite lookup_insert_ne, lookup_insert_ne, lookup_insert_ne,
      lookup_insert_eq by done. done.
  - unfold analyze, login_required, Auth.next_request. cbn [session Auth.session_after].
    rewrite flash_lookup_ne by done.
    rewrite lookup_insert_ne, lookup_insert_ne, lookup_insert_ne,
      lookup_insert_eq by done. done.
Qed.

Lemma signin_opens_session_witness :
  let after :=
    Auth.signin AuthScenario.db
      (AuthScenario.post (AuthScenario.signin_form "ana@example.com" "secret")) in
  let next := Auth.next_request after GET ∅ ∅ in
  Auth.resp after = Redirect "/" /\
  Auth.session_after after
    = Auth.flash ("Welcome " +:+ PyRepr.str (PStr "Ana") +:+ "!") "success"
        (<["name" := PStr "Ana"]> (<["username" := PStr "Ana"]> (<["user_id" := PInt 7]>
          (<["logged_in" := PBool true]> ∅)))) /\
  Auth.session_after after !! "_flashes"
    = Some (PList (Auth.flashes ∅
                   ++ [PList [PStr "success";
                              PStr ("Welcome " +:+ PyRepr.str (PStr "Ana") +:+ "!")]])) /\
  Auth.resp (Auth.home next) = Render "index.html" [] /\
  run (analyze Scenario.rt next) = (Ok (Render "analyze.html" []), []).
Proof.
  apply (signin_opens_session AuthScenario.db Scenario.rt
           (AuthScenario.post (AuthScenario.signin_form "ana@example.com" "secret"))
           "ana@example.com" "secret" AuthScenario.ana (PStr "hash:secret")
           (PInt 7) (PStr "Ana")).
  - reflexivity.
  - reflexivity.
  - reflexivity.
  - discriminate.
  - reflexivity.
  - discriminate.
  - reflexivity.
  - reflexivity.
  - reflexivity.
  - reflexivity.
  - reflexivity.
  - reflexivity.
Defined.

(** X23: but for the flashed messages, the session is written only after
    the password check has succeeded: if [signin] leaves a key other than
    "_flashes" with another value than it found, or adds such a key, then
    the form had an e-mail and a password, the query returned a row with a
    "password" column, and [check_password_hash] answered [True]. *)
Theorem signin_session_guard (db : Auth.services) (req : request) (key : string) :
  key <> "_flashes" ->
  Auth.session_after (Auth.signin db req) !! key <> session req !! key ->
  exists email password user row stored,
    form req !! "email" = Some email /\
    form req !! "password" = Some password /\
    Auth.select_user db email = Auth.Done user /\
    Auth.row_found user = Some row /\
    dict_lookup "password" row = Some stored /\
    Auth.check_password_hash db stored password = Auth.Done true.
Proof.
  intros Hkey Hchanged.
  destruct (method req) eqn:Hmethod.
  { unfold Auth.signin in Hchanged. by rewrite Hmethod in Hchanged. }
  destruct (Auth.field_missing (form req !! "email")
            || Auth.field_missing (form req !! "password")) eqn:Hmissing.
  { unfold Auth.signin in Hchanged. rewrite Hmethod, Hmissing in Hchanged.
    cbn [Auth.session_after] in Hchanged. by rewrite flash_lookup_ne in Hchanged. }
  apply orb_false_iff in Hmissing as [Hemail Hpass].
  apply field_missing_false in Hemail as (email & Hemail & Hemail').
  apply field_missing_false in Hpass as (password & Hpass & Hpass').
  rewrite (signin_complete_form db req email password) in Hchanged by done.
  cbv zeta in Hchanged.
  destruct (Auth.select_user db email) as [user|text] eqn:Hselect;
    [|cbn [Auth.session_after] in Hchanged; by rewrite flash_lookup_ne in Hchanged].
  destruct (Auth.row_found user) as [row|] eqn:Hrow;
    [|cbn [Auth.session_after] in Hchanged; by rewrite flash_lookup_ne in Hchanged].
  destruct (dict_lookup "password" row) as [stored|] eqn:Hstored;
    [|cbn [Auth.session_after] in Hchanged; by rewrite flash_lookup_ne in Hchanged].
  destruct (Auth.check_password_hash db stored password) as [[|]|text] eqn:Hcheck;
    [|cbn [Auth.session_after] in Hchanged; by rewrite flash_lookup_ne in Hchanged..].
  by exists email, password, user, row, stored.
Qed.

Lemma signin_session_guard_witness :
  exists email password user row stored,
    form (AuthScenario.post (AuthScenario.signin_form "ana@example.com" "secret")) !! "email"
      = Some email /\
    form (AuthScenario.post (AuthScenario.signin_form "ana@example.com" "secret"))
      !! "password" = Some password /\
    Auth.select_user AuthScenario.db email = Auth.Done user /\
    Auth.row_found user = Some row /\
    dict_lookup "password" row = Some stored /\
    Auth.check_password_hash AuthScenario.db stored password = Auth.Done true.
Proof.
  apply (signin_session_guard AuthScenario.db
           (AuthScenario.post (AuthScenario.signin_form "ana@example.com" "secret"))
           "logged_in").
  - discriminate.
  - vm_compute. discriminate.
Defined.

(** X24: an unknown e-mail and a wrong password are answered alike: the
    same redirect, the same flashed message, appended alike to the list
    under "_flashes", and no other key of the session touched, so that the
    answer does not tell whether the account exists. *)
Theorem signin_refusals_alike (db1 db2 : Auth.services) (req : request)
    (email password : string) (user : option pydict) (row : pydict) (stored : pyval) :
  method req = POST ->
  Auth.flashes_ok (session req) = true ->
  form req !! "email" = Some email -> email <> EmptyString ->
  form req !! "password" = Some password -> password <> EmptyString ->
  Auth.select_user db1 email = Auth.Done user -> Auth.row_found user = None ->
  Auth.select_user db2 email = Auth.Done (Some row) -> row <> [] ->
  dict_lookup "password" row = Some stored ->
  Auth.check_password_hash db2 stored password = Auth.Done false ->
  Auth.signin db1 req = Auth.signin db2 req /\
  Auth.signin db2 req
  = {| Auth.resp := Redirect "/signin";
       Auth.session_after :=
         Auth.flash "Invalid email or password!" "danger" (session req);
       Auth.effects := [Auth.UserQuery email;
                        Auth.Flashed "Invalid email or password!" "danger"] |} /\
  (forall key, key <> "_flashes" ->
     Auth.session_after (Auth.signin db2 req) !! key = session req !! key).
Proof.
  intros Hmethod _ Hemail Hemail' Hpass Hpass' Hselect1 Hrow1 Hselect2 Hrow2 Hstored Hcheck.
  rewrite !(signin_complete_form _ req email password) by done.
  cbv zeta. rewrite Hselect1, Hrow1, Hselect2.
  assert (Auth.row_found (Some row) = Some row) as ->.
  { destruct row; [done|reflexivity]. }
  rewrite Hstored, Hcheck. split_and!; [done|done|].
  intros key Hkey. cbn [Auth.session_after]. by apply flash_lookup_ne.
Qed.

Lemma signin_refusals_alike_witness :
  let req := AuthScenario.post (AuthScenario.signin_form "ana@example.com" "guess") in
  Auth.signin AuthScenario.db_empty req = Auth.signin AuthScenario.db req /\
  Auth.signin AuthScenario.db req
  = {| Auth.resp := Redirect "/signin";
       Auth.session_after :=
         Auth.flash "Invalid email or password!" "danger" (session req);
       Auth.effects := [Auth.UserQuery "ana@example.com";
                        Auth.Flashed "Invalid email or password!" "danger"] |} /\
  (forall key, key <> "_flashes" ->
     Auth.session_after (Auth.signin AuthScenario.db req) !! key = session req !! key).
Proof.
  apply (signin_refusals_alike AuthScenario.db_empty AuthScenario.db
           (AuthScenario.post (AuthScenario.signin_form "ana@example.com" "guess"))
           "ana@example.com" "guess" None AuthScenario.ana (PStr "hash:secret")).
  - reflexivity.
  - reflexivity.
  - reflexivity.
  - discriminate.
  - reflexivity.
  - discriminate.
  - reflexivity.
  - reflexivity.
  - reflexivity.
  - discriminate.
  - reflexivity.
  - reflexivity.
Defined.

(** X25: after [logout] the session is empty, so whatever the browser
    sends next, [home] and [/analyze] answer with the redirect to the
    sign-in page, and [/analyze] does nothing but flash its message. *)
Theorem logout_closes_session (rt : runtime) (req : request) (m : http_method)
    (fields : gmap string string) (uploads : gmap string file_storage) :
  let next := Auth.next_request (Auth.logout req) m fields uploads in
  Auth.resp (Auth.logout req) = Redirect "/signin" /\
  Auth.resp (Auth.home next) = Redirect "/signin" /\
  run (analyze rt next)
  = (Ok (Redirect "/signin"), [Flash "Please log in to access this page." "warning"]).
Proof. done. Qed.

(** X26: the session keys are written one by one inside the [try] block:
    when the password check succeeds on a row that has no "id" column, the
    handler answers with the "Error 3" message and the redirect to the
    sign-in page, but 'logged_in' is already in the session it leaves,
    beside the flashed message. *)
Theorem signin_partial_session (db : Auth.services) (req : request)
    (email password : string) (row : pydict) (stored : pyval) :
  method req = POST ->
  Auth.flashes_ok (session req) = true ->
  form req !! "email" = Some email -> email <> EmptyString ->
  form req !! "password" = Some password -> password <> EmptyString ->
  Auth.select_user db email = Auth.Done (Some row) ->
  dict_lookup "password" row = Some stored ->
  Auth.check_password_hash db stored password = Auth.Done true ->
  dict_lookup "id" row = None ->
  Auth.signin db req
  = {| Auth.resp := Redirect "/signin";
       Auth.session_after :=
         Auth.flash "Error 3: 'id'" "danger"
           (<["logged_in" := PBool true]> (session req));
       Auth.effects := [Auth.UserQuery email;
                        Auth.Flashed "Error 3: 'id'" "danger"] |} /\
  Auth.session_after (Auth.signin db req) !! "logged_in" = Some (PBool true).
Proof.
  intros Hmethod _ Hemail Hemail' Hpass Hpass' Hselect Hstored Hcheck Hid.
  rewrite (signin_complete_form db req email password) by done.
  cbv zeta. rewrite Hselect.
  assert (Auth.row_found (Some row) = Some row) as ->.
  { destruct row; [done|reflexivity]. }
  rewrite Hstored, Hcheck, Hid. split; [done|].
  cbn [Auth.session_after]. rewrite flash_lookup_ne by done.
  by rewrite lookup_insert_eq.
Qed.

Lemma signin_partial_session_witness :
  let req := AuthScenario.post (AuthScenario.signin_form "ana@example.com" "secret") in
  Auth.signin AuthScenario.db_no_id req
  = {| Auth.resp := Redirect "/signin";
       Auth.session_after :=
         Auth.flash "Error 3: 'id'" "danger"
           (<["logged_in" := PBool true]> (session req));
       Auth.effects := [Auth.UserQuery "ana@example.com";
                        Auth.Flashed "Error 3: 'id'" "danger"] |} /\
  Auth.session_after (Auth.signin AuthScenario.db_no_id req) !! "logged_in"
  = Some (PBool true).
Proof.
  apply (signin_partial_session AuthScenario.db_no_id
           (AuthScenario.post (AuthScenario.signin_form "ana@example.com" "secret"))
           "ana@example.com" "secret"
           [("name", PStr "Ana"); ("password", PStr "hash:secret")] (PStr "hash:secret")).
  - reflexivity.
  - reflexivity.
  - reflexivity.
  - discriminate.
  - reflexivity.
  - discriminate.
  - reflexivity.
  - reflexivity.
  - reflexivity.
  - reflexivity.
Defined.

(** ** The API key and what is printed *)

(** X27: what [load_llm] prints does not depend on the API key: two
    processes that differ only in the value of a key that is set, and in
    what their client classes build, leave the same trace. *)
Theorem load_llm_trace_hides_key (lr1 lr2 : loader_runtime) (provider : string)
    (client1 client2 : pyval -> string -> result chat_model) (key1 key2 : string) :
  provider = "groq" \/ provider = "openai" ->
  provider_class lr1 provider = Some client1 ->
  provider_class lr2 provider = Some client2 ->
  environ lr1 !! provider_key provider = Some key1 -> key1 <> EmptyString ->
  environ lr2 !! provider_key provider = Some key2 -> key2 <> EmptyString ->
  config lr1 = config lr2 ->
  snd (run (load_llm lr1 provider)) = snd (run (load_llm lr2 provider)).
Proof.
  intros Hp Hclass1 Hclass2 Hkey1 Hne1 Hkey2 Hne2 Hconfig.
  rewrite (load_llm_with_key lr1 provider client1 key1) by done.
  rewrite (load_llm_with_key lr2 provider client2 key2) by done.
  rewrite Hconfig. by destruct (model_name_of (config lr2) provider).
Qed.

Lemma load_llm_trace_hides_key_witness :
  snd (run (load_llm Scenario.loader_keys "groq"))
  = snd (run (load_llm Scenario.loader_other_key "groq")).
Proof.
  apply (load_llm_trace_hides_key Scenario.loader_keys Scenario.loader_other_key "groq"
           (Scenario.new_client "ChatGroq") (Scenario.new_client "ChatGroq")
           "gsk-test" "gsk-other").
  - by left.
  - reflexivity.
  - reflexivity.
  - reflexivity.
  - discriminate.
  - reflexivity.
  - discriminate.
  - reflexivity.
Defined.
